(** * Tapkee: the [embed] dispatcher and the PCA matrix primitives

    A shallow embedding of [include/tapkee.hpp] (the entry point [embed]) and
    of [src/methods/pca.hpp] ([project], [compute_covariance_matrix],
    [compute_centered_kernel_matrix]), followed by the properties proved
    about them.

    Conventions of the model.
    - [DefaultScalarType] is a typedef of the library. The matrix primitives
      are written once, over any type with the arithmetic of [Scalar], and
      read at two instances: the exact rationals [Qc], where the algebraic
      statements are proved, and [float], the IEEE binary64 numbers of a C++
      [double], where a call can be evaluated with its rounding.
    - A random-access range [begin, end) is a [list Data]; an iterator is the
      suffix still to be visited together with its offset [iter - begin].
    - A C++ exception and a failed size assertion of Eigen are the two ways
      a call can end without a value: [outcome]. A division is the scalar
      type's own operation and always yields a value; in binary64 a zero
      divisor gives an infinity or a NaN, as for a C++ [double].
    - Dense Eigen objects are their sizes and their coefficient accessor. *)

From Stdlib Require Import QArith Qcanon PrimFloat.
From stdpp Require Import base numbers option list strings gmap.

(** ** Outcomes of a call *)

(** The exceptions named in [tapkee.hpp], the two standard ones the
    dispatcher catches or lets through, and [dimension_mismatch_error]: the
    last one is a member of the documented error taxonomy that has no throw
    site in the two source files. *)
Inductive exception : Type :=
  | missed_parameter_error (what : string)
  | wrong_parameter_type_error (what : string)
  | wrong_parameter_error (what : string)
  | unsupported_method_error (what : string)
  | not_enough_memory_error (what : string)
  | cancelled_exception
  | eigendecomposition_error (what : string)
  | dimension_mismatch_error (what : string)
  | bad_any_cast
  | bad_alloc.

(** What is not an exception: a failed [eigen_assert] (sizes of the operands
    of a coefficient-wise operation, a product or a reduction). *)
Inductive fault : Type :=
  | eigen_assertion.

Inductive outcome (A : Type) : Type :=
  | Returned (a : A)
  | Thrown (e : exception)
  | Faulted (f : fault).
Arguments Returned {A} a.
Arguments Thrown {A} e.
Arguments Faulted {A} f.

#[global] Instance outcome_ret : MRet outcome := @Returned.
#[global] Instance outcome_bind : MBind outcome := λ A B k m,
  match m with
  | Returned a => k a
  | Thrown e => Thrown e
  | Faulted f => Faulted f
  end.

(** [eigen_assert(cond)] *)
Definition eigen_assert (cond : bool) : outcome unit :=
  if cond then Returned tt else Faulted eigen_assertion.

(** ** Scalars *)

(** The arithmetic that the primitives use of their scalar type: the
    constants [0.0] and [1.0], the four operations, unary minus, the
    comparison [==], and the conversion of a count ([end - begin],
    [rows()], [size()]). *)
Class Scalar (T : Type) : Type := mkScalar {
  scalar_zero : T;
  scalar_one : T;
  scalar_add : T → T → T;
  scalar_sub : T → T → T;
  scalar_mul : T → T → T;
  scalar_quot : T → T → T;
  scalar_opp : T → T;
  scalar_eqb : T → T → bool;
  scalar_of_nat : nat → T
}.

Declare Scope scalar_scope.
Delimit Scope scalar_scope with S.
Notation "0" := scalar_zero : scalar_scope.
Notation "1" := scalar_one : scalar_scope.
Infix "+" := scalar_add : scalar_scope.
Infix "-" := scalar_sub : scalar_scope.
Infix "*" := scalar_mul : scalar_scope.
Infix "/" := scalar_quot : scalar_scope.
Notation "- x" := (scalar_opp x) : scalar_scope.

(** Exact arithmetic. The quotient of [Qc] by zero is [0] by convention;
    no statement below depends on that value: what is proved of a quotient
    at this instance is proved on a non-empty range, where the divisor is
    not zero. *)
Abbreviation ScalarType := Qc.

Definition Qc_of_nat (n : nat) : Qc := Qc_of_Z (Z.of_nat n).

#[global] Instance exact_arithmetic : Scalar Qc := {|
  scalar_zero := 0%Qc;
  scalar_one := 1%Qc;
  scalar_add := Qcplus;
  scalar_sub := Qcminus;
  scalar_mul := Qcmult;
  scalar_quot := Qcdiv;
  scalar_opp := Qcopp;
  scalar_eqb := λ a b, bool_decide (a = b);
  scalar_of_nat := Qc_of_nat
|}.

(** IEEE binary64 arithmetic, rounding to nearest even. A count is
    converted by counting up from zero, which is exact below [2^53]. *)
Fixpoint float_of_nat (n : nat) : float :=
  match n with
  | O => 0%float
  | S m => (float_of_nat m + 1)%float
  end.

#[global] Instance binary64 : Scalar float := {|
  scalar_zero := 0%float;
  scalar_one := 1%float;
  scalar_add := PrimFloat.add;
  scalar_sub := PrimFloat.sub;
  scalar_mul := PrimFloat.mul;
  scalar_quot := PrimFloat.div;
  scalar_opp := PrimFloat.opp;
  scalar_eqb := PrimFloat.eqb;
  scalar_of_nat := float_of_nat
|}.

Section Scalars.

Context {T : Type} `{Scalar T}.
Local Open Scope scalar_scope.

(** Sum of [f 0 .. f (n-1)], the reduction Eigen performs over a column, a
    row or a whole matrix. *)
Fixpoint sum_n (f : nat → T) (n : nat) : T :=
  match n with
  | O => 0
  | S m => sum_n f m + f m
  end.

End Scalars.

(** ** Dense objects *)

Record DenseVector (T : Type) : Type := mkVector {
  vsize : nat;
  vcoeff : nat → T
}.
Arguments mkVector {T} vsize vcoeff.
Arguments vsize {T} d.
Arguments vcoeff {T} d i.

Record DenseMatrix (T : Type) : Type := mkMatrix {
  rows : nat;
  cols : nat;
  coeff : nat → nat → T
}.
Arguments mkMatrix {T} rows cols coeff.
Arguments rows {T} d.
Arguments cols {T} d.
Arguments coeff {T} d i j.

(** [DenseSymmetricMatrix] is the same dense storage as [DenseMatrix]. *)
Definition DenseSymmetricMatrix (T : Type) : Type := DenseMatrix T.

(** [std::pair<DenseMatrix,DenseVector>] *)
Definition EmbeddingResult (T : Type) : Type := (DenseMatrix T * DenseVector T)%type.
Definition ProjectionResult (T : Type) : Type := (DenseMatrix T * DenseVector T)%type.

Section Dense.

Context {T : Type} `{Scalar T}.
Local Open Scope scalar_scope.

Definition vector_of_list (l : list T) : DenseVector T :=
  mkVector (length l) (λ i, nth i l 0).

Definition vector_to_list (v : DenseVector T) : list T :=
  map (vcoeff v) (seq 0 (vsize v)).

Definition matrix_of_rows (c : nat) (l : list (list T)) : DenseMatrix T :=
  mkMatrix (length l) c (λ i j, nth j (nth i l []) 0).

Definition matrix_to_rows (m : DenseMatrix T) : list (list T) :=
  map (λ i, map (coeff m i) (seq 0 (cols m))) (seq 0 (rows m)).

End Dense.

(** The coefficients of a matrix of rationals as fractions, row by row. *)
Definition matrix_values (m : DenseMatrix Qc) : list (list Q) :=
  map (map this) (matrix_to_rows m).

(** The sum of [f x] over the feature vectors [xs]. *)
Definition sum_over (f : DenseVector Qc → Qc) (xs : list (DenseVector Qc)) : Qc :=
  foldr (λ x acc, f x + acc)%Qc 0%Qc xs.

(** The covariance matrix as the specification writes it, coefficient
    [(i,j)] of [Σ x xᵀ − (1/n) (Σ x) (Σ x)ᵀ] over the [n] vectors [xs]. *)
Definition covariance_formula (xs : list (DenseVector Qc)) (i j : nat) : Qc :=
  (sum_over (λ x, vcoeff x i * vcoeff x j) xs
   - (1 / Qc_of_nat (length xs))
     * sum_over (λ x, vcoeff x i) xs * sum_over (λ x, vcoeff x j) xs)%Qc.

Module Eigen.

Section Operations.

Context {T : Type} `{Scalar T}.
Local Open Scope scalar_scope.

(** [DenseVector()] *)
Definition empty_vector : DenseVector T := mkVector 0 (λ _, 0).

(** [DenseVector::Zero(n)] and [DenseMatrix::Zero(r,c)] *)
Definition vector_Zero (n : nat) : DenseVector T := mkVector n (λ _, 0).
Definition matrix_Zero (r c : nat) : DenseMatrix T := mkMatrix r c (λ _ _, 0).

(** [m(i,j) = k] *)
Definition set_coeff (m : DenseMatrix T) (i j : nat) (k : T) : DenseMatrix T :=
  mkMatrix (rows m) (cols m)
    (λ a b, if decide (a = i ∧ b = j) then k else coeff m a b).

(** [s += v] *)
Definition add_assign (s v : DenseVector T) : outcome (DenseVector T) :=
  _ ← eigen_assert (bool_decide (vsize s = vsize v));
  mret (mkVector (vsize s) (λ i, vcoeff s i + vcoeff v i)).

(** [m.selfadjointView<Eigen::Upper>().rankUpdate(u,alpha)]: the rank-one
    update [m += alpha * u * u^T], written to the upper triangle only, over
    the [u.size()] leading rows and columns. *)
Definition rankUpdate_Upper (m : DenseMatrix T) (u : DenseVector T) (alpha : T)
  : DenseMatrix T :=
  mkMatrix (rows m) (cols m)
    (λ i j, if decide (i ≤ j ∧ j < vsize u)%nat
            then coeff m i j + (alpha * vcoeff u j) * vcoeff u i
            else coeff m i j).

(** What a consumer reads through [selfadjointView<Eigen::Upper>()]. *)
Definition selfadjointView_Upper (m : DenseMatrix T) : DenseMatrix T :=
  mkMatrix (rows m) (cols m)
    (λ i j, if decide (i ≤ j)%nat then coeff m i j else coeff m j i).

(** [m.transpose() * x] *)
Definition transpose_times (m : DenseMatrix T) (x : DenseVector T)
  : outcome (DenseVector T) :=
  _ ← eigen_assert (bool_decide (rows m = vsize x));
  mret (mkVector (cols m) (λ k, sum_n (λ r, coeff m r k * vcoeff x r) (rows m))).

(** [m.row(i) = v] *)
Definition assign_row (m : DenseMatrix T) (i : nat) (v : DenseVector T)
  : outcome (DenseMatrix T) :=
  _ ← eigen_assert (bool_decide (cols m = vsize v));
  mret (mkMatrix (rows m) (cols m)
          (λ a b, if decide (a = i) then vcoeff v b else coeff m a b)).

(** [m.colwise().mean()]: per column, the sum of the column over [rows()]. *)
Definition colwise_mean (m : DenseMatrix T) : outcome (DenseVector T) :=
  mret (mkVector (cols m)
          (λ j, sum_n (λ i, coeff m i j) (rows m) / scalar_of_nat (rows m))).

(** [m.mean()]: a full reduction, which asserts that [m] is not empty. *)
Definition mean (m : DenseMatrix T) : outcome T :=
  _ ← eigen_assert (bool_decide (0 < rows m ∧ 0 < cols m)%nat);
  mret (sum_n (λ j, sum_n (λ i, coeff m i j) (rows m)) (cols m)
        / scalar_of_nat (rows m * cols m)).

(** [m.array() += s] *)
Definition array_add_assign (m : DenseMatrix T) (s : T) : DenseMatrix T :=
  mkMatrix (rows m) (cols m) (λ i j, coeff m i j + s).

(** [m.colwise() -= v]: [v] is subtracted from every column. *)
Definition colwise_sub_assign (m : DenseMatrix T) (v : DenseVector T)
  : outcome (DenseMatrix T) :=
  _ ← eigen_assert (bool_decide (vsize v = rows m));
  mret (mkMatrix (rows m) (cols m) (λ i j, coeff m i j - vcoeff v i)).

(** [m.rowwise() -= v.transpose()]: [v^T] is subtracted from every row. *)
Definition rowwise_sub_assign (m : DenseMatrix T) (v : DenseVector T)
  : outcome (DenseMatrix T) :=
  _ ← eigen_assert (bool_decide (vsize v = cols m));
  mret (mkMatrix (rows m) (cols m) (λ i j, coeff m i j - vcoeff v j)).

(** [m.transposeInPlace()] *)
Definition transposeInPlace (m : DenseMatrix T) : DenseMatrix T :=
  mkMatrix (cols m) (rows m) (λ i j, coeff m j i).

End Operations.

End Eigen.

(** ** [src/methods/pca.hpp] *)

Section Pca.

(** The scalar type of the dense objects, and the items of the range. *)
Context {T : Type} `{Scalar T} {Data : Type}.
Local Open Scope scalar_scope.

(** The coefficients of storage that is sized but not initialised
    ([DenseVector v(n)], [DenseMatrix m(r,c)]): whatever the allocation
    holds, by linear position. *)
Variable uninitialised : nat → T.

Definition vector_sized (n : nat) : DenseVector T := mkVector n uninitialised.
Definition matrix_sized (r c : nat) : DenseMatrix T :=
  mkMatrix r c (λ i j, uninitialised (i + j * r)%nat).

(** [void vector(const Data&, DenseVector&)]: the callback receives the
    caller's buffer and leaves the feature vector in it. *)
Definition FeatureVectorCallback : Type := Data → DenseVector T → DenseVector T.

(** [ScalarType kernel(const Data&, const Data&)] *)
Definition KernelCallback : Type := Data → Data → T.

(** The successive contents of [current_vector], one per item. *)
Fixpoint feature_vectors (callback : FeatureVectorCallback) (data : list Data)
    (current_vector : DenseVector T) : list (DenseVector T) :=
  match data with
  | [] => []
  | item :: rest =>
      let current_vector := callback item current_vector in
      current_vector :: feature_vectors callback rest current_vector
  end.

(** The loop of [project]; [offset] is [iter - begin]. *)
Fixpoint project_loop (projection_matrix : DenseMatrix T)
    (callback : FeatureVectorCallback) (offset : nat) (data : list Data)
    (current_vector : DenseVector T) (embedding : DenseMatrix T)
    : outcome (DenseMatrix T) :=
  match data with
  | [] => mret embedding
  | item :: rest =>
      let current_vector := callback item current_vector in
      row ← Eigen.transpose_times projection_matrix current_vector;
      embedding ← Eigen.assign_row embedding offset row;
      project_loop projection_matrix callback (S offset) rest current_vector embedding
  end.

Definition project (projection_result : ProjectionResult T) (data : list Data)
    (callback : FeatureVectorCallback) (dimension : nat) : outcome (EmbeddingResult T) :=
  let current_vector := vector_sized dimension in
  let projection_matrix := projection_result.1 in
  let embedding := Eigen.matrix_Zero (length data) (cols projection_matrix) in
  embedding ← project_loop projection_matrix callback 0 data current_vector embedding;
  mret (embedding, Eigen.empty_vector).

(** The loop of [compute_covariance_matrix], on the triple
    [(current_vector, sum, covariance_matrix)]. *)
Fixpoint covariance_loop (callback : FeatureVectorCallback) (data : list Data)
    (current_vector sum : DenseVector T) (covariance_matrix : DenseMatrix T)
    : outcome (DenseVector T * DenseMatrix T) :=
  match data with
  | [] => mret (sum, covariance_matrix)
  | item :: rest =>
      let current_vector := callback item current_vector in
      sum ← Eigen.add_assign sum current_vector;
      let covariance_matrix := Eigen.rankUpdate_Upper covariance_matrix current_vector 1 in
      covariance_loop callback rest current_vector sum covariance_matrix
  end.

(** [-1.0/(end-begin)]: a plain division of the scalar type, with no test
    of the divisor. *)
Definition covariance_scale (data : list Data) : T :=
  scalar_opp 1 / scalar_of_nat (length data).

Definition compute_covariance_matrix (data : list Data)
    (callback : FeatureVectorCallback) (dimension : nat)
    : outcome (DenseSymmetricMatrix T) :=
  let covariance_matrix := Eigen.matrix_Zero dimension dimension in
  let sum := Eigen.vector_Zero dimension in
  let current_vector := vector_sized dimension in
  '(sum, covariance_matrix) ←
    covariance_loop callback data current_vector sum covariance_matrix;
  let alpha := covariance_scale data in
  mret (Eigen.rankUpdate_Upper covariance_matrix sum alpha).

(** The inner loop of [compute_centered_kernel_matrix]: [j_iter] runs over
    [data_j] from offset [j], for the fixed item [item_i] at offset [i]. *)
Fixpoint kernel_row (callback : KernelCallback) (item_i : Data) (i j : nat)
    (data_j : list Data) (kernel_matrix : DenseMatrix T) : DenseMatrix T :=
  match data_j with
  | [] => kernel_matrix
  | item_j :: rest =>
      let k := callback item_i item_j in
      let kernel_matrix := Eigen.set_coeff kernel_matrix i j k in
      let kernel_matrix := Eigen.set_coeff kernel_matrix j i k in
      kernel_row callback item_i i (S j) rest kernel_matrix
  end.

(** The outer loop: [i_iter] runs over [data_i] from offset [i], and
    [j_iter] starts at [i_iter]. *)
Fixpoint kernel_fill (callback : KernelCallback) (i : nat) (data_i : list Data)
    (kernel_matrix : DenseMatrix T) : DenseMatrix T :=
  match data_i with
  | [] => kernel_matrix
  | item_i :: rest =>
      kernel_fill callback (S i) rest
        (kernel_row callback item_i i i data_i kernel_matrix)
  end.

Definition compute_centered_kernel_matrix (data : list Data)
    (callback : KernelCallback) : outcome (DenseSymmetricMatrix T) :=
  let kernel_matrix := matrix_sized (length data) (length data) in
  let kernel_matrix := kernel_fill callback 0 data kernel_matrix in
  col_means ← Eigen.colwise_mean kernel_matrix;
  grand_mean ← Eigen.mean kernel_matrix;
  let kernel_matrix := Eigen.array_add_assign kernel_matrix grand_mean in
  kernel_matrix ← Eigen.colwise_sub_assign kernel_matrix col_means;
  kernel_matrix ← Eigen.rowwise_sub_assign kernel_matrix col_means;
  mret kernel_matrix.

End Pca.

(** ** [include/tapkee.hpp] *)

(** The method selector's enumeration, as the [switch] of [embed] lists it. *)
Inductive TAPKEE_METHOD : Type :=
  | KERNEL_LOCALLY_LINEAR_EMBEDDING
  | KERNEL_LOCAL_TANGENT_SPACE_ALIGNMENT
  | DIFFUSION_MAP
  | MULTIDIMENSIONAL_SCALING
  | LANDMARK_MULTIDIMENSIONAL_SCALING
  | ISOMAP
  | LANDMARK_ISOMAP
  | NEIGHBORHOOD_PRESERVING_EMBEDDING
  | LINEAR_LOCAL_TANGENT_SPACE_ALIGNMENT
  | HESSIAN_LOCALLY_LINEAR_EMBEDDING
  | LAPLACIAN_EIGENMAPS
  | LOCALITY_PRESERVING_PROJECTIONS
  | PCA
  | KERNEL_PCA
  | RANDOM_PROJECTION
  | STOCHASTIC_PROXIMITY_EMBEDDING
  | PASS_THRU
  | FACTOR_ANALYSIS
  | T_DISTRIBUTED_STOCHASTIC_NEIGHBOR_EMBEDDING
  | UNKNOWN_METHOD.

(** The two enumerations whose values [embed] writes as defaults. *)
Inductive TAPKEE_EIGEN_EMBEDDING_METHOD : Type :=
  | ARPACK
  | EIGEN_DENSE_SELFADJOINT_SOLVER.

Inductive TAPKEE_NEIGHBORS_METHOD : Type :=
  | COVER_TREE.

(** Modelled from the spec: the declaration of the enumeration
    [TAPKEE_PARAMETERS] is not among the sources. The keys that [embed]
    reads or writes carry the names it uses for them; [METHOD_SPECIFIC]
    stands for the tuning parameters that only the method variants read. *)
Inductive TAPKEE_PARAMETERS : Type :=
  | REDUCTION_METHOD
  | OUTPUT_FEATURE_VECTORS_ARE_COLUMNS
  | EIGENSHIFT
  | KLLE_TRACE_SHIFT
  | CHECK_CONNECTIVITY
  | EIGEN_EMBEDDING_METHOD
  | TARGET_DIMENSION
  | NEIGHBORS_METHOD
  | PROGRESS_FUNCTION
  | CANCEL_FUNCTION
  | METHOD_SPECIFIC (which : nat).

#[global] Instance TAPKEE_PARAMETERS_eq_dec : EqDecision TAPKEE_PARAMETERS.
Proof. solve_decision. Defined.

Definition TAPKEE_PARAMETERS_code (k : TAPKEE_PARAMETERS) : nat :=
  match k with
  | REDUCTION_METHOD => 0
  | OUTPUT_FEATURE_VECTORS_ARE_COLUMNS => 1
  | EIGENSHIFT => 2
  | KLLE_TRACE_SHIFT => 3
  | CHECK_CONNECTIVITY => 4
  | EIGEN_EMBEDDING_METHOD => 5
  | TARGET_DIMENSION => 6
  | NEIGHBORS_METHOD => 7
  | PROGRESS_FUNCTION => 8
  | CANCEL_FUNCTION => 9
  | METHOD_SPECIFIC n => 10 + n
  end.

Definition TAPKEE_PARAMETERS_of_code (n : nat) : TAPKEE_PARAMETERS :=
  match n with
  | 0 => REDUCTION_METHOD
  | 1 => OUTPUT_FEATURE_VECTORS_ARE_COLUMNS
  | 2 => EIGENSHIFT
  | 3 => KLLE_TRACE_SHIFT
  | 4 => CHECK_CONNECTIVITY
  | 5 => EIGEN_EMBEDDING_METHOD
  | 6 => TARGET_DIMENSION
  | 7 => NEIGHBORS_METHOD
  | 8 => PROGRESS_FUNCTION
  | 9 => CANCEL_FUNCTION
  | S (S (S (S (S (S (S (S (S (S n))))))))) => METHOD_SPECIFIC n
  end%nat.

#[global] Instance TAPKEE_PARAMETERS_countable : Countable TAPKEE_PARAMETERS.
Proof.
  apply (inj_countable' TAPKEE_PARAMETERS_code TAPKEE_PARAMETERS_of_code).
  intros []; reflexivity.
Defined.

(** [IndexType] and the address held by a function pointer. *)
Definition IndexType : Type := Z.
Definition function_pointer : Type := N.

(** The dynamically typed value of the parameters map, with one tag per
    type that [embed] stores or casts to; [any_other] is a value of any
    further type, and [any_empty] the default-constructed holder that
    [operator[]] creates for a key that is absent. *)
Inductive any : Type :=
  | any_empty
  | any_bool (b : bool)
  | any_ScalarType (x : ScalarType)
  | any_IndexType (n : IndexType)
  | any_TAPKEE_METHOD (m : TAPKEE_METHOD)
  | any_TAPKEE_EIGEN_EMBEDDING_METHOD (m : TAPKEE_EIGEN_EMBEDDING_METHOD)
  | any_TAPKEE_NEIGHBORS_METHOD (m : TAPKEE_NEIGHBORS_METHOD)
  | any_progress_function (f : function_pointer)
  | any_cancel_function (f : function_pointer)
  | any_other (type_id : nat).

(** [a.cast<T>()], which throws [anyimpl::bad_any_cast] on another type. *)
Definition cast_TAPKEE_METHOD (a : any) : outcome TAPKEE_METHOD :=
  match a with any_TAPKEE_METHOD m => Returned m | _ => Thrown bad_any_cast end.
Definition cast_bool (a : any) : outcome bool :=
  match a with any_bool b => Returned b | _ => Thrown bad_any_cast end.
Definition cast_progress_function (a : any) : outcome function_pointer :=
  match a with any_progress_function f => Returned f | _ => Thrown bad_any_cast end.
Definition cast_cancel_function (a : any) : outcome function_pointer :=
  match a with any_cancel_function f => Returned f | _ => Thrown bad_any_cast end.

Abbreviation ParametersMap := (gmap TAPKEE_PARAMETERS any).

(** [parameters.count(KEY)] and [parameters[KEY]] *)
Definition count (parameters : ParametersMap) (KEY : TAPKEE_PARAMETERS) : bool :=
  bool_decide (is_Some (parameters !! KEY)).
Definition at_key (parameters : ParametersMap) (KEY : TAPKEE_PARAMETERS) : any :=
  default any_empty (parameters !! KEY).

(** The macro [PUT_DEFAULT(KEY,TYPE,VALUE)]; [VALUE] comes already tagged
    with [TYPE]. *)
Definition PUT_DEFAULT (KEY : TAPKEE_PARAMETERS) (VALUE : any)
    (parameters : ParametersMap) : ParametersMap :=
  if negb (count parameters KEY) then <[KEY := VALUE]> parameters else parameters.

(** [tapkee_internal::Context]; a null pointer is [None]. *)
Record Context : Type := mkContext {
  progress_function : option function_pointer;
  cancel_function : option function_pointer
}.

(** What the dispatcher does that a caller can observe besides its result. *)
Inductive event : Type :=
  | message_info (msg : string)
  | implementation_entered (method : TAPKEE_METHOD)
      (parameters : ParametersMap) (context : Context).

Section Embed.

Context {Data KernelCallback DistanceCallback FeatureVectorCallback : Type}.

(** The second component of [ReturnResult]. *)
Context {ProjectingFunction : Type}.

Definition ReturnResult : Type := (DenseMatrix ScalarType * ProjectingFunction)%type.

(** [tapkee_internal::Callbacks<...>] *)
Record Callbacks : Type := mkCallbacks {
  kernel : KernelCallback;
  distance : DistanceCallback;
  feature : FeatureVectorCallback
}.

(** The build flags [TAPKEE_WITH_ARPACK] and [TAPKEE_USE_LGPL_COVERTREE]. *)
Variable TAPKEE_WITH_ARPACK : bool.
Variable TAPKEE_USE_LGPL_COVERTREE : bool.

(** The method variants [tapkee_internal::X_implementation] and
    [tapkee_internal::get_method_name], defined outside these sources. *)
Variable implementation :
  TAPKEE_METHOD → list Data → Callbacks → ParametersMap → Context → outcome ReturnResult.
Variable get_method_name : TAPKEE_METHOD → string.

(** Lines 109-120: the selector is required, and a failed cast of it is
    rethrown as [wrong_parameter_type_error]. *)
Definition read_method (parameters : ParametersMap) : outcome TAPKEE_METHOD :=
  if negb (count parameters REDUCTION_METHOD)
  then Thrown (missed_parameter_error "Dimension reduction method wasn't specified")
  else
    match cast_TAPKEE_METHOD (at_key parameters REDUCTION_METHOD) with
    | Thrown bad_any_cast => Thrown (wrong_parameter_type_error "Wrong method type specified.")
    | r => r
    end.

(** Lines 126-142: the defaults, in the order of the source. *)
Definition put_defaults (parameters : ParametersMap) : ParametersMap :=
  let parameters := PUT_DEFAULT OUTPUT_FEATURE_VECTORS_ARE_COLUMNS (any_bool false) parameters in
  let parameters := PUT_DEFAULT EIGENSHIFT (any_ScalarType (Q2Qc (1 # 1000000000)%Q)) parameters in
  let parameters := PUT_DEFAULT KLLE_TRACE_SHIFT (any_ScalarType (Q2Qc (1 # 1000)%Q)) parameters in
  let parameters := PUT_DEFAULT CHECK_CONNECTIVITY (any_bool true) parameters in
  let parameters :=
    if TAPKEE_WITH_ARPACK
    then PUT_DEFAULT EIGEN_EMBEDDING_METHOD (any_TAPKEE_EIGEN_EMBEDDING_METHOD ARPACK) parameters
    else PUT_DEFAULT EIGEN_EMBEDDING_METHOD
           (any_TAPKEE_EIGEN_EMBEDDING_METHOD EIGEN_DENSE_SELFADJOINT_SOLVER) parameters in
  let parameters := PUT_DEFAULT TARGET_DIMENSION (any_IndexType 2%Z) parameters in
  let parameters :=
    if TAPKEE_USE_LGPL_COVERTREE
    then PUT_DEFAULT NEIGHBORS_METHOD (any_TAPKEE_NEIGHBORS_METHOD COVER_TREE) parameters
    else parameters in
  parameters.

(** The keys under which [put_defaults] leaves a value in every case. *)
Definition defaulted (K : TAPKEE_PARAMETERS) : bool :=
  match K with
  | OUTPUT_FEATURE_VECTORS_ARE_COLUMNS | EIGENSHIFT | KLLE_TRACE_SHIFT
  | CHECK_CONNECTIVITY | EIGEN_EMBEDDING_METHOD | TARGET_DIMENSION => true
  | NEIGHBORS_METHOD => TAPKEE_USE_LGPL_COVERTREE
  | _ => false
  end.

(** Lines 146-154: the two hooks, cast without a handler around them. *)
Definition read_hook (cast : any → outcome function_pointer)
    (parameters : ParametersMap) (KEY : TAPKEE_PARAMETERS) : outcome (option function_pointer) :=
  if count parameters KEY
  then f ← cast (at_key parameters KEY); mret (Some f)
  else mret None.

Definition read_context (parameters : ParametersMap) : outcome Context :=
  progress_function ← read_hook cast_progress_function parameters PROGRESS_FUNCTION;
  cancel_function ← read_hook cast_cancel_function parameters CANCEL_FUNCTION;
  mret (mkContext progress_function cancel_function).

(** [CALL_IMPLEMENTATION(X)] *)
Definition CALL_IMPLEMENTATION (X : TAPKEE_METHOD) (data : list Data)
    (kernel_callback : KernelCallback) (distance_callback : DistanceCallback)
    (feature_vector_callback : FeatureVectorCallback)
    (parameters : ParametersMap) (context : Context) : list event * outcome ReturnResult :=
  ([implementation_entered X parameters context],
   implementation X data
     (mkCallbacks kernel_callback distance_callback feature_vector_callback)
     parameters context).

(** Lines 166-188: the [switch], one [HANDLE_IMPLEMENTATION] per method. *)
Definition switch_method (method : TAPKEE_METHOD) (data : list Data)
    (kernel_callback : KernelCallback) (distance_callback : DistanceCallback)
    (feature_vector_callback : FeatureVectorCallback)
    (parameters : ParametersMap) (context : Context) : list event * outcome ReturnResult :=
  let HANDLE_IMPLEMENTATION X :=
    CALL_IMPLEMENTATION X data kernel_callback distance_callback
      feature_vector_callback parameters context in
  match method with
  | KERNEL_LOCALLY_LINEAR_EMBEDDING =>
      HANDLE_IMPLEMENTATION KERNEL_LOCALLY_LINEAR_EMBEDDING
  | KERNEL_LOCAL_TANGENT_SPACE_ALIGNMENT =>
      HANDLE_IMPLEMENTATION KERNEL_LOCAL_TANGENT_SPACE_ALIGNMENT
  | DIFFUSION_MAP => HANDLE_IMPLEMENTATION DIFFUSION_MAP
  | MULTIDIMENSIONAL_SCALING => HANDLE_IMPLEMENTATION MULTIDIMENSIONAL_SCALING
  | LANDMARK_MULTIDIMENSIONAL_SCALING =>
      HANDLE_IMPLEMENTATION LANDMARK_MULTIDIMENSIONAL_SCALING
  | ISOMAP => HANDLE_IMPLEMENTATION ISOMAP
  | LANDMARK_ISOMAP => HANDLE_IMPLEMENTATION LANDMARK_ISOMAP
  | NEIGHBORHOOD_PRESERVING_EMBEDDING =>
      HANDLE_IMPLEMENTATION NEIGHBORHOOD_PRESERVING_EMBEDDING
  | LINEAR_LOCAL_TANGENT_SPACE_ALIGNMENT =>
      HANDLE_IMPLEMENTATION LINEAR_LOCAL_TANGENT_SPACE_ALIGNMENT
  | HESSIAN_LOCALLY_LINEAR_EMBEDDING =>
      HANDLE_IMPLEMENTATION HESSIAN_LOCALLY_LINEAR_EMBEDDING
  | LAPLACIAN_EIGENMAPS => HANDLE_IMPLEMENTATION LAPLACIAN_EIGENMAPS
  | LOCALITY_PRESERVING_PROJECTIONS =>
      HANDLE_IMPLEMENTATION LOCALITY_PRESERVING_PROJECTIONS
  | PCA => HANDLE_IMPLEMENTATION PCA
  | KERNEL_PCA => HANDLE_IMPLEMENTATION KERNEL_PCA
  | RANDOM_PROJECTION => HANDLE_IMPLEMENTATION RANDOM_PROJECTION
  | STOCHASTIC_PROXIMITY_EMBEDDING =>
      HANDLE_IMPLEMENTATION STOCHASTIC_PROXIMITY_EMBEDDING
  | PASS_THRU => HANDLE_IMPLEMENTATION PASS_THRU
  | FACTOR_ANALYSIS => HANDLE_IMPLEMENTATION FACTOR_ANALYSIS
  | T_DISTRIBUTED_STOCHASTIC_NEIGHBOR_EMBEDDING =>
      HANDLE_IMPLEMENTATION T_DISTRIBUTED_STOCHASTIC_NEIGHBOR_EMBEDDING
  | UNKNOWN_METHOD => ([], Thrown (wrong_parameter_error "unknown method"))
  end.

(** Lines 163-193: the logged message, the [switch], and the handler that
    turns [std::bad_alloc] into [not_enough_memory_error]. *)
Definition dispatch (method : TAPKEE_METHOD) (data : list Data)
    (kernel_callback : KernelCallback) (distance_callback : DistanceCallback)
    (feature_vector_callback : FeatureVectorCallback)
    (parameters : ParametersMap) (context : Context) : list event * outcome ReturnResult :=
  let '(events, result) :=
    switch_method method data kernel_callback distance_callback
      feature_vector_callback parameters context in
  (message_info ("Using " +:+ get_method_name method +:+ " method.") :: events,
   match result with
   | Thrown bad_alloc => Thrown (not_enough_memory_error "Not enough memory")
   | r => r
   end).

(** Lines 198-201: the orientation of the embedding. *)
Definition orient (parameters : ParametersMap) (return_result : ReturnResult)
    : outcome ReturnResult :=
  columns ← cast_bool (at_key parameters OUTPUT_FEATURE_VECTORS_ARE_COLUMNS);
  mret (if columns : bool
        then (Eigen.transposeInPlace return_result.1, return_result.2)
        else return_result).

(** A hook slot holds a value of another type than its function pointer. *)
Definition hook_ill_typed (parameters : ParametersMap) : Prop :=
  (∃ v, parameters !! PROGRESS_FUNCTION = Some v
        ∧ cast_progress_function v = Thrown bad_any_cast)
  ∨ (∃ v, parameters !! CANCEL_FUNCTION = Some v
          ∧ cast_cancel_function v = Thrown bad_any_cast).

(** What precedes the dispatch: the selector, the defaults, the hooks. *)
Definition prepare (parameters : ParametersMap)
    : outcome (TAPKEE_METHOD * ParametersMap * Context) :=
  method ← read_method parameters;
  let parameters := put_defaults parameters in
  context ← read_context parameters;
  mret (method, parameters, context).

Definition embed (data : list Data)
    (kernel_callback : KernelCallback) (distance_callback : DistanceCallback)
    (feature_vector_callback : FeatureVectorCallback)
    (parameters : ParametersMap) : list event * outcome ReturnResult :=
  match prepare parameters with
  | Returned (method, parameters, context) =>
      let '(events, result) :=
        dispatch method data kernel_callback distance_callback
          feature_vector_callback parameters context in
      (events, result ≫= orient parameters)
  | Thrown e => ([], Thrown e)
  | Faulted f => ([], Faulted f)
  end.

End Embed.

(** ** Tables and formulas of the further properties *)

(** The value that lines 127-140 write under a key that is absent, by the
    two build flags; [None] for a key without a default. *)
Definition default_value (with_arpack use_covertree : bool) (K : TAPKEE_PARAMETERS)
  : option any :=
  match K with
  | OUTPUT_FEATURE_VECTORS_ARE_COLUMNS => Some (any_bool false)
  | EIGENSHIFT => Some (any_ScalarType (Q2Qc (1 # 1000000000)%Q))
  | KLLE_TRACE_SHIFT => Some (any_ScalarType (Q2Qc (1 # 1000)%Q))
  | CHECK_CONNECTIVITY => Some (any_bool true)
  | EIGEN_EMBEDDING_METHOD =>
      Some (any_TAPKEE_EIGEN_EMBEDDING_METHOD
              (if with_arpack then ARPACK else EIGEN_DENSE_SELFADJOINT_SOLVER))
  | TARGET_DIMENSION => Some (any_IndexType 2%Z)
  | NEIGHBORS_METHOD =>
      if use_covertree then Some (any_TAPKEE_NEIGHBORS_METHOD COVER_TREE) else None
  | _ => None
  end.

(** [DenseMatrix::Identity(d,d)] *)
Definition Identity {T : Type} `{Scalar T} (d : nat) : DenseMatrix T :=
  mkMatrix d d (λ i j, if decide (i = j) then scalar_one else scalar_zero).

(** The mean of coefficient [i] over the vectors [xs], and the sum of the
    products of the centred coefficients [i] and [j]: the covariance as two
    passes over the data would accumulate it. *)
Definition mean_of (xs : list (DenseVector Qc)) (i : nat) : Qc :=
  (sum_over (λ x, vcoeff x i) xs / Qc_of_nat (length xs))%Qc.

Definition centered_products (xs : list (DenseVector Qc)) (i j : nat) : Qc :=
  sum_over (λ x, (vcoeff x i - mean_of xs i) * (vcoeff x j - mean_of xs j))%Qc xs.

Local Open Scope Qc_scope.

(** ** Concrete inputs used by the examples *)

Module Samples.

(** What the fresh storage happens to hold. *)
Definition uninitialised (position : nat) : ScalarType := Qc_of_Z 77.

(** Items that carry their own coordinates, and the callback that copies
    them into the buffer. *)
Definition vector (item : list ScalarType) (current_vector : DenseVector ScalarType)
  : DenseVector ScalarType :=
  vector_of_list item.

Definition square : list (list ScalarType) :=
  [[0; 0]; [1; 0]; [0; 1]; [1; 1]].

Definition constant : list (list ScalarType) :=
  [[Qc_of_Z 3; Qc_of_Z 5]; [Qc_of_Z 3; Qc_of_Z 5]; [Qc_of_Z 3; Qc_of_Z 5]].

Definition items : list nat := [1; 2; 3]%nat.

(** A kernel that is not symmetric. *)
Definition kernel (a b : nat) : ScalarType := Qc_of_Z (Z.of_nat (a * a + b)).

(** Two items and a kernel of binary64 values, the nearest to [0.1] for
    [k(0,0)] and [k(0,1)] and to [0.8] for [k(1,1)]: a symmetric positive
    definite kernel matrix. The fresh storage holds not-a-number. *)
Definition pair : list nat := [0; 1]%nat.

Definition rounding_kernel (a b : nat) : float :=
  match a, b with
  | S _, S _ => 0x1.999999999999ap-1%float
  | _, _ => 0x1.999999999999ap-4%float
  end.

Definition stale (position : nat) : float := PrimFloat.nan.

(** A basis with two rows and one column, and one with three rows. *)
Definition basis : ProjectionResult ScalarType :=
  (matrix_of_rows 1 [[Qc_of_Z 2]; [Qc_of_Z 3]], Eigen.empty_vector).
Definition basis3 : ProjectionResult ScalarType :=
  (matrix_of_rows 1 [[Qc_of_Z 2]; [Qc_of_Z 3]; [Qc_of_Z 4]], Eigen.empty_vector).

(** A method variant that returns the one-row embedding [[1 2]]. *)
Definition implementation (method : TAPKEE_METHOD) (data : list nat)
    (callbacks : @Callbacks unit unit unit) (parameters : ParametersMap)
    (context : Context) : outcome (@ReturnResult unit) :=
  Returned (matrix_of_rows 2 [[1; 2]], tt).

Definition get_method_name (method : TAPKEE_METHOD) : string := "some".

Definition embed (parameters : ParametersMap) : list event * outcome (@ReturnResult unit) :=
  embed false false implementation get_method_name [0%nat; 1%nat] tt tt tt parameters.

Definition unknown_selector : ParametersMap :=
  {[ REDUCTION_METHOD := any_TAPKEE_METHOD UNKNOWN_METHOD ]}.

Definition no_selector : ParametersMap :=
  {[ TARGET_DIMENSION := any_IndexType 3%Z ]}.

Definition bad_progress_hook : ParametersMap :=
  <[ PROGRESS_FUNCTION := any_bool true ]>
    {[ REDUCTION_METHOD := any_TAPKEE_METHOD PCA ]}.

End Samples.

(** ** Further concrete inputs *)

Module MoreSamples.

(** Method variants that fail: one on an allocation, one in the solver. *)
Definition out_of_memory (method : TAPKEE_METHOD) (data : list nat)
    (callbacks : @Callbacks unit unit unit) (parameters : ParametersMap)
    (context : Context) : outcome (@ReturnResult unit) :=
  Thrown bad_alloc.

Definition failing_solver (method : TAPKEE_METHOD) (data : list nat)
    (callbacks : @Callbacks unit unit unit) (parameters : ParametersMap)
    (context : Context) : outcome (@ReturnResult unit) :=
  Thrown (eigendecomposition_error "no convergence").

Definition pca_selector : ParametersMap :=
  {[ REDUCTION_METHOD := any_TAPKEE_METHOD PCA ]}.

Definition pca_with_progress : ParametersMap :=
  <[ PROGRESS_FUNCTION := any_progress_function 4096%N ]> pca_selector.

Definition pca_columns : ParametersMap :=
  <[ OUTPUT_FEATURE_VECTORS_ARE_COLUMNS := any_bool true ]> pca_selector.

Definition pca_bad_orientation : ParametersMap :=
  <[ OUTPUT_FEATURE_VECTORS_ARE_COLUMNS := any_IndexType 1%Z ]> pca_selector.

Definition bad_selector : ParametersMap :=
  <[ CANCEL_FUNCTION := any_bool false ]>
    {[ REDUCTION_METHOD := any_IndexType 12%Z ]}.

(** The corners of the unit square moved by [(10, -4)]. *)
Definition moved_square : list (list ScalarType) :=
  [[Qc_of_Z 10; Qc_of_Z (-4)]; [Qc_of_Z 11; Qc_of_Z (-4)];
   [Qc_of_Z 10; Qc_of_Z (-3)]; [Qc_of_Z 11; Qc_of_Z (-3)]].

(** Items with three coordinates among items with two. *)
Definition ragged : list (list ScalarType) :=
  [[0; 1]; [1; 0; 1]; [1; 1]].

(** A kernel that differs from [Samples.kernel] by the constant [5]. *)
Definition raised_kernel (a b : nat) : ScalarType :=
  Samples.kernel a b + Qc_of_Z 5.

(** A kernel that agrees with [Samples.kernel] when its first argument is
    not the larger one, and is zero otherwise. *)
Definition upper_kernel (a b : nat) : ScalarType :=
  if (a <=? b)%nat then Samples.kernel a b else 0.

(** The vector by which [moved_square] is moved. *)
Definition move (i : nat) : ScalarType := nth i [Qc_of_Z 10; Qc_of_Z (-4)] 0.

(** Another content of the fresh storage. *)
Definition other_storage (position : nat) : ScalarType := Qc_of_Z (Z.of_nat position).

(** Three equal items whose coordinates are the binary64 numbers nearest to
    [0.1] and [0.7], and the callback that copies the coordinates of an item
    into the buffer. *)
Definition float_vector (item : list float) (current_vector : DenseVector float)
  : DenseVector float :=
  vector_of_list item.

Definition repeated : list (list float) :=
  [[0x1.999999999999ap-4%float; 0x1.6666666666666p-1%float];
   [0x1.999999999999ap-4%float; 0x1.6666666666666p-1%float];
   [0x1.999999999999ap-4%float; 0x1.6666666666666p-1%float]].

End MoreSamples.

(** * Arithmetic of sums and counts *)

(** Reads the operations of [Scalar] at the instance of exact arithmetic. *)
Ltac exact_arith :=
  cbn [scalar_zero scalar_one scalar_add scalar_sub scalar_mul scalar_quot
       scalar_opp scalar_eqb scalar_of_nat exact_arithmetic] in *.

Lemma Qc_of_nat_S n : Qc_of_nat (S n) = Qc_of_nat n + 1.
Proof.
  unfold Qc_of_nat. apply Qc_is_canon. unfold Qc_of_Z. simpl.
  rewrite Nat2Z.inj_succ. unfold Z.succ.
  rewrite Qred_correct. rewrite inject_Z_plus. reflexivity.
Qed.

Lemma Qc_of_nat_0 : Qc_of_nat 0 = 0.
Proof. apply Qc_is_canon. reflexivity. Qed.

Lemma Qc_of_nat_pos n : (0 < n)%nat → Qc_of_nat n ≠ 0.
Proof.
  intros Hn H. apply (f_equal this) in H. unfold Qc_of_nat, Qc_of_Z in H. simpl in H.
  injection H as H. lia.
Qed.

Lemma Qc_of_nat_add n m : Qc_of_nat (n + m) = Qc_of_nat n + Qc_of_nat m.
Proof.
  induction n as [|n IH]; simpl.
  - rewrite Qc_of_nat_0. ring.
  - rewrite !Qc_of_nat_S, IH. ring.
Qed.

Lemma Qc_of_nat_mul n m : Qc_of_nat (n * m) = Qc_of_nat n * Qc_of_nat m.
Proof.
  induction n as [|n IH]; simpl.
  - rewrite Qc_of_nat_0. ring.
  - rewrite Qc_of_nat_add, Qc_of_nat_S, IH. ring.
Qed.

Lemma sum_n_S (f : nat → Qc) n : sum_n f (S n) = sum_n f n + f n.
Proof. reflexivity. Qed.

Lemma sum_n_ext (f g : nat → Qc) n :
  (∀ i, (i < n)%nat → f i = g i) → sum_n f n = sum_n g n.
Proof.
  induction n as [|n IH]; intros H; [reflexivity|].
  rewrite !sum_n_S, IH, H by (intros; auto with lia). reflexivity.
Qed.

Lemma sum_n_add (f g : nat → Qc) n :
  sum_n (λ i, f i + g i) n = sum_n f n + sum_n g n.
Proof.
  induction n as [|n IH]; [exact_arith; simpl; ring|].
  rewrite !sum_n_S, IH. ring.
Qed.

Lemma sum_n_const (c : Qc) n : sum_n (λ _, c) n = Qc_of_nat n * c.
Proof.
  induction n as [|n IH].
  - rewrite Qc_of_nat_0. simpl. exact_arith. ring.
  - rewrite sum_n_S, IH, Qc_of_nat_S. ring.
Qed.

Lemma sum_n_scale (c : Qc) (f : nat → Qc) n : sum_n (λ i, c * f i) n = c * sum_n f n.
Proof.
  induction n as [|n IH]; [simpl; exact_arith; ring|].
  rewrite !sum_n_S, IH. ring.
Qed.

Lemma eigen_assert_true (cond : bool) : cond = true → eigen_assert cond = Returned tt.
Proof. intros ->. reflexivity. Qed.

(** ** The Eigen operations when their size requirements hold *)

Section EigenFacts.

Context {T : Type} `{Scalar T}.
Local Open Scope scalar_scope.

Lemma colwise_mean_nonempty (m : DenseMatrix T) :
  (0 < rows m)%nat →
  Eigen.colwise_mean m
  = Returned (mkVector (cols m)
      (λ j, sum_n (λ i, coeff m i j) (rows m) / scalar_of_nat (rows m))).
Proof. intros Hr. reflexivity. Qed.

Lemma mean_nonempty (m : DenseMatrix T) :
  (0 < rows m)%nat → (0 < cols m)%nat →
  Eigen.mean m
  = Returned (sum_n (λ j, sum_n (λ i, coeff m i j) (rows m)) (cols m)
              / scalar_of_nat (rows m * cols m)).
Proof.
  intros Hr Hc. unfold Eigen.mean.
  rewrite eigen_assert_true by (apply bool_decide_eq_true; lia). reflexivity.
Qed.

Lemma colwise_sub_assign_sized (m : DenseMatrix T) v :
  vsize v = rows m →
  Eigen.colwise_sub_assign m v
  = Returned (mkMatrix (rows m) (cols m) (λ i j, coeff m i j - vcoeff v i)).
Proof.
  intros Hv. unfold Eigen.colwise_sub_assign.
  rewrite eigen_assert_true by (by apply bool_decide_eq_true). reflexivity.
Qed.

Lemma rowwise_sub_assign_sized (m : DenseMatrix T) v :
  vsize v = cols m →
  Eigen.rowwise_sub_assign m v
  = Returned (mkMatrix (rows m) (cols m) (λ i j, coeff m i j - vcoeff v j)).
Proof.
  intros Hv. unfold Eigen.rowwise_sub_assign.
  rewrite eigen_assert_true by (by apply bool_decide_eq_true). reflexivity.
Qed.

Lemma add_assign_sized (s v : DenseVector T) :
  vsize s = vsize v →
  Eigen.add_assign s v = Returned (mkVector (vsize s) (λ i, vcoeff s i + vcoeff v i)).
Proof.
  intros Hv. unfold Eigen.add_assign.
  rewrite eigen_assert_true by (by apply bool_decide_eq_true). reflexivity.
Qed.

Lemma transpose_times_sized (m : DenseMatrix T) x :
  rows m = vsize x →
  Eigen.transpose_times m x
  = Returned (mkVector (cols m) (λ k, sum_n (λ r, coeff m r k * vcoeff x r) (rows m))).
Proof.
  intros Hx. unfold Eigen.transpose_times.
  rewrite eigen_assert_true by (by apply bool_decide_eq_true). reflexivity.
Qed.

Lemma transpose_times_mismatch (m : DenseMatrix T) x :
  rows m ≠ vsize x → Eigen.transpose_times m x = Faulted eigen_assertion.
Proof.
  intros Hx. unfold Eigen.transpose_times.
  rewrite bool_decide_eq_false_2 by done. reflexivity.
Qed.

Lemma assign_row_sized (m : DenseMatrix T) i v :
  cols m = vsize v →
  Eigen.assign_row m i v
  = Returned (mkMatrix (rows m) (cols m)
                (λ a b, if decide (a = i) then vcoeff v b else coeff m a b)).
Proof.
  intros Hv. unfold Eigen.assign_row.
  rewrite eigen_assert_true by (by apply bool_decide_eq_true). reflexivity.
Qed.

End EigenFacts.

Lemma sum_over_ext f g xs : (∀ x, f x = g x) → sum_over f xs = sum_over g xs.
Proof. intros Hfg. induction xs as [|x xs IH]; simpl; [reflexivity|]. by rewrite Hfg, IH. Qed.

Lemma sum_over_constant f c xs :
  Forall (λ x, f x = c) xs → sum_over f xs = Qc_of_nat (length xs) * c.
Proof.
  induction 1 as [|x xs Hx _ IH]; simpl.
  - rewrite Qc_of_nat_0. ring.
  - rewrite IH, Hx, Qc_of_nat_S. ring.
Qed.

(** * Properties of the matrix primitives *)

(** ** What holds for every scalar type *)

Section LoopFacts.

Context {T : Type} `{Scalar T} {Data : Type}.
Variable uninitialised : nat → T.

Local Abbreviation compute_centered_kernel_matrix :=
  (compute_centered_kernel_matrix uninitialised).
Local Abbreviation project := (project uninitialised).

(** The inner loop keeps the sizes, writes only the cross of row and column
    [i] from offset [j] on, and leaves that cross symmetric. *)
Lemma kernel_row_spec (callback : @KernelCallback T Data) item_i i data_j :
  ∀ j K,
    let K' := kernel_row callback item_i i j data_j K in
    rows K' = rows K ∧ cols K' = cols K
    ∧ (∀ a b, ¬ ((a = i ∧ j ≤ b < j + length data_j) ∨ (b = i ∧ j ≤ a < j + length data_j))%nat
              → coeff K' a b = coeff K a b)
    ∧ (∀ b, (j ≤ b < j + length data_j)%nat → coeff K' i b = coeff K' b i).
Proof.
  induction data_j as [|item_j rest IH]; intros j K; simpl.
  - repeat split; auto. intros b Hb. lia.
  - specialize (IH (S j)
        (Eigen.set_coeff (Eigen.set_coeff K i j (callback item_i item_j)) j i
           (callback item_i item_j))).
    simpl in IH. destruct IH as (Hr & Hc & Hframe & Hsym).
    repeat split; auto.
    + intros a b Hab. rewrite Hframe by lia. simpl.
      repeat case_decide; try reflexivity; lia.
    + intros b Hb. destruct (decide (b = j)) as [->|Hne].
      * rewrite !Hframe by lia. simpl.
        repeat case_decide; try reflexivity; lia.
      * apply Hsym. lia.
Qed.

Lemma kernel_fill_spec (callback : @KernelCallback T Data) data_i :
  ∀ i K n,
    (i + length data_i = n)%nat →
    (∀ a b, (a < n)%nat → (b < n)%nat → (a < i ∨ b < i)%nat → coeff K a b = coeff K b a) →
    let K' := kernel_fill callback i data_i K in
    rows K' = rows K ∧ cols K' = cols K
    ∧ (∀ a b, (a < n)%nat → (b < n)%nat → coeff K' a b = coeff K' b a).
Proof.
  induction data_i as [|item_i rest IH]; intros i K n Hn Hsym; simpl.
  - repeat split; auto. intros a b Ha Hb. apply Hsym; simpl in Hn; lia.
  - destruct (kernel_row_spec callback item_i i (item_i :: rest) i K)
      as (Hr & Hc & Hframe & Hrow).
    simpl in Hn, Hframe, Hrow.
    destruct (IH (S i) (kernel_row callback item_i i i (item_i :: rest) K) n)
      as (Hr' & Hc' & Hsym'); [lia| |].
    + intros a b Ha Hb Hab. simpl.
      destruct (decide (a = i)) as [->|Hai].
      * destruct (decide (i ≤ b)%nat).
        -- apply Hrow. lia.
        -- rewrite !Hframe by lia. apply Hsym; lia.
      * destruct (decide (b = i)) as [->|Hbi].
        -- destruct (decide (i ≤ a)%nat).
           ++ symmetry. apply Hrow. lia.
           ++ rewrite !Hframe by lia. apply Hsym; lia.
        -- rewrite !Hframe by lia. apply Hsym; lia.
    + simpl in *. repeat split; auto; congruence.
Qed.

(** The matrix of kernel values that the two loops leave: square of the
    size of the data, and symmetric whatever the callback and whatever the
    storage held before. *)
Lemma kernel_fill_symmetric (callback : @KernelCallback T Data) data :
  let n := length data in
  let K := kernel_fill callback 0 data (matrix_sized uninitialised n n) in
  rows K = n ∧ cols K = n
  ∧ (∀ a b, (a < n)%nat → (b < n)%nat → coeff K a b = coeff K b a).
Proof.
  intros n K.
  destruct (kernel_fill_spec callback data 0 (matrix_sized uninitialised n n) n)
    as (Hr & Hc & Hsym); [reflexivity | intros; lia |].
  repeat split; auto.
Qed.

(** The value of a call on a non-empty range, coefficient by coefficient and
    with the operations of the scalar type in the order of the source: the
    grand mean is added, then the mean of column [a] is subtracted (from
    row [a]), then the mean of column [b] (from column [b]). *)
Lemma centered_kernel_coefficients (callback : @KernelCallback T Data) data :
  data ≠ [] →
  let n := length data in
  let K := kernel_fill callback 0 data (matrix_sized uninitialised n n) in
  let c j := (sum_n (λ i, coeff K i j) n / scalar_of_nat n)%S in
  let g := (sum_n (λ j, sum_n (λ i, coeff K i j) n) n / scalar_of_nat (n * n))%S in
  ∃ M, compute_centered_kernel_matrix data callback = Returned M
       ∧ rows M = n ∧ cols M = n
       ∧ ∀ a b, coeff M a b = (((coeff K a b + g) - c a) - c b)%S.
Proof.
  intros Hne n K c g.
  destruct (kernel_fill_symmetric callback data) as (Hr & Hc & _).
  fold n in Hr, Hc. fold K in Hr, Hc.
  assert (Hn : (0 < n)%nat) by (subst n; destruct data; simpl; [done|lia]).
  unfold compute_centered_kernel_matrix. fold n. fold K.
  rewrite colwise_mean_nonempty by lia. cbn [mbind outcome_bind].
  rewrite mean_nonempty by lia. cbn [mbind outcome_bind].
  rewrite colwise_sub_assign_sized by (simpl; congruence). cbn [mbind outcome_bind].
  rewrite rowwise_sub_assign_sized by (simpl; congruence). cbn [mbind outcome_bind].
  eexists. split; [reflexivity|]. simpl. rewrite Hr, Hc. repeat split; auto.
Qed.

Lemma feature_vectors_length (callback : @FeatureVectorCallback T Data) data current_vector :
  length (feature_vectors callback data current_vector) = length data.
Proof.
  revert current_vector. induction data as [|item rest IH]; intros cur; simpl;
    [reflexivity | by rewrite IH].
Qed.

(** The loop can only stop on the size assertion of [sum += current_vector]. *)
Lemma covariance_loop_outcome (callback : @FeatureVectorCallback T Data) data :
  ∀ current_vector sum covariance_matrix,
    (∃ r, covariance_loop callback data current_vector sum covariance_matrix = Returned r)
    ∨ covariance_loop callback data current_vector sum covariance_matrix
      = Faulted eigen_assertion.
Proof.
  induction data as [|item rest IH]; intros cur sum cov; simpl.
  - left. eauto.
  - unfold Eigen.add_assign, eigen_assert. case_bool_decide; simpl; [apply IH | by right].
Qed.

(** On an empty range the full reduction [kernel_matrix.mean()] meets an
    empty matrix. *)
Lemma centered_kernel_empty (callback : @KernelCallback T Data) :
  compute_centered_kernel_matrix [] callback = Faulted eigen_assertion.
Proof. reflexivity. Qed.

(** The loop of [project] on feature vectors that all have as many
    coefficients as the basis has rows: row [offset + k] receives the image
    of the [k]-th vector, the rows outside the range keep their contents. *)
Lemma project_loop_spec (callback : @FeatureVectorCallback T Data) B data :
  ∀ offset current_vector embedding,
    cols embedding = cols B →
    Forall (λ x, vsize x = rows B) (feature_vectors callback data current_vector) →
    ∃ E, project_loop B callback offset data current_vector embedding = Returned E
         ∧ rows E = rows embedding ∧ cols E = cols embedding
         ∧ (∀ k x, feature_vectors callback data current_vector !! k = Some x →
              ∀ c, coeff E (offset + k) c = sum_n (λ r, coeff B r c * vcoeff x r)%S (rows B))
         ∧ (∀ a c, (a < offset)%nat → coeff E a c = coeff embedding a c).
Proof.
  induction data as [|item rest IH]; intros offset cur E0 Hcols Hxs; simpl in *.
  - exists E0. repeat split; auto. intros k x Hk. discriminate Hk.
  - inversion Hxs as [|x xs Hx Hrest]; subst.
    rewrite transpose_times_sized by done. cbn [mbind outcome_bind].
    rewrite assign_row_sized by (simpl; congruence). cbn [mbind outcome_bind].
    match goal with
    | |- context [project_loop _ _ ?o _ ?c ?m] =>
        destruct (IH o c m) as (E & Hrun & Hr & Hc & Hrows & Hframe);
          [simpl; congruence | exact Hrest |]
    end.
    exists E. simpl in *. repeat split; auto.
    + intros [|k] x Hk c; simpl in Hk.
      * injection Hk as <-. rewrite Nat.add_0_r, Hframe by lia.
        rewrite decide_True by done. reflexivity.
      * rewrite <- Nat.add_succ_comm. by apply Hrows.
    + intros a c Ha. rewrite Hframe by lia. rewrite decide_False by lia. reflexivity.
Qed.

(** C6. When every feature vector has as many coefficients as the basis
    [B] has rows, [project] returns an embedding with one row per item and
    as many columns as [B]; row [i] is [Bᵀ x] for the [i]-th feature vector
    [x], in the order of the range. The basis is an argument that the
    function only reads. *)
Theorem project_rows (projection_result : ProjectionResult T) (data : list Data)
    (callback : @FeatureVectorCallback T Data) (dimension : nat) :
  Forall (λ x, vsize x = rows projection_result.1)
    (feature_vectors callback data (vector_sized uninitialised dimension)) →
  ∃ E, project projection_result data callback dimension
       = Returned (E, Eigen.empty_vector)
       ∧ rows E = length data
       ∧ cols E = cols projection_result.1
       ∧ ∀ i x,
           feature_vectors callback data (vector_sized uninitialised dimension) !! i
           = Some x →
           ∀ c, coeff E i c
                = sum_n (λ r, coeff projection_result.1 r c * vcoeff x r)%S
                    (rows projection_result.1).
Proof.
  intros Hxs. unfold project.
  destruct (project_loop_spec callback projection_result.1 data 0
              (vector_sized uninitialised dimension)
              (Eigen.matrix_Zero (length data) (cols projection_result.1)))
    as (E & Hrun & Hr & Hc & Hrows & _); [reflexivity | exact Hxs |].
  rewrite Hrun. cbn [mbind outcome_bind].
  exists E. split; [reflexivity|]. split; [exact Hr|]. split; [exact Hc|].
  intros i x Hi c. exact (Hrows i x Hi c).
Qed.

(** The loop stops on the size assertion of the product at the first
    feature vector whose size is not the number of rows of the basis. *)
Lemma project_loop_mismatch (callback : @FeatureVectorCallback T Data) B data :
  ∀ offset current_vector embedding,
    cols embedding = cols B →
    Exists (λ x, vsize x ≠ rows B) (feature_vectors callback data current_vector) →
    project_loop B callback offset data current_vector embedding
    = Faulted eigen_assertion.
Proof.
  induction data as [|item rest IH]; intros offset cur E0 Hcols Hxs; simpl in *.
  - inversion Hxs.
  - destruct (decide (rows B = vsize (callback item cur))) as [Heq|Hne].
    + rewrite transpose_times_sized by done. cbn [mbind outcome_bind].
      rewrite assign_row_sized by (simpl; congruence). cbn [mbind outcome_bind].
      apply IH; [simpl; congruence|].
      inversion Hxs as [? ? Hhead|? ? Htail]; subst; [congruence | exact Htail].
    + rewrite transpose_times_mismatch by done. reflexivity.
Qed.

(** C4, as the code has it. [project] checks no dimension and throws no
    exception: when some feature vector has another size than the basis has
    rows, the call ends on the failed size assertion of the product
    [projection_matrix.transpose()*current_vector], without an embedding. *)
Theorem project_dimension_mismatch (projection_result : ProjectionResult T)
    (data : list Data) (callback : @FeatureVectorCallback T Data) (dimension : nat) :
  Exists (λ x, vsize x ≠ rows projection_result.1)
    (feature_vectors callback data (vector_sized uninitialised dimension)) →
  project projection_result data callback dimension = Faulted eigen_assertion.
Proof.
  intros Hxs. unfold project.
  rewrite project_loop_mismatch by done. reflexivity.
Qed.

End LoopFacts.

(** ** What holds in exact arithmetic *)

Section PcaFacts.

Context {Data : Type}.
Variable uninitialised : nat → ScalarType.

Local Abbreviation compute_centered_kernel_matrix :=
  (compute_centered_kernel_matrix uninitialised).
Local Abbreviation compute_covariance_matrix :=
  (compute_covariance_matrix uninitialised).
Local Abbreviation project := (project uninitialised).

(** The value of a call on a non-empty range, in exact arithmetic. *)
Lemma centered_kernel_value (callback : @KernelCallback Qc Data) data :
  data ≠ [] →
  let n := length data in
  let K := kernel_fill callback 0 data (matrix_sized uninitialised n n) in
  let c j := sum_n (λ i, coeff K i j) n / Qc_of_nat n in
  let g := sum_n (λ j, sum_n (λ i, coeff K i j) n) n / Qc_of_nat (n * n) in
  ∃ M, compute_centered_kernel_matrix data callback = Returned M
       ∧ rows M = n ∧ cols M = n
       ∧ ∀ a b, coeff M a b = coeff K a b + g - c a - c b.
Proof. intros Hne. exact (centered_kernel_coefficients uninitialised callback data Hne). Qed.

Lemma centered_kernel_symmetric_value (callback : @KernelCallback Qc Data) data M :
  data ≠ [] →
  compute_centered_kernel_matrix data callback = Returned M →
  ∀ a b, (a < length data)%nat → (b < length data)%nat → coeff M a b = coeff M b a.
Proof.
  intros Hne HM a b Ha Hb.
  destruct (centered_kernel_value callback data Hne) as (M' & HM' & _ & _ & Hv).
  rewrite HM in HM'. injection HM' as <-.
  destruct (kernel_fill_symmetric uninitialised callback data) as (_ & _ & Hsym).
  rewrite !Hv, (Hsym a b) by done. ring.
Qed.

Lemma centered_kernel_column_sum (callback : @KernelCallback Qc Data) data M :
  data ≠ [] →
  compute_centered_kernel_matrix data callback = Returned M →
  ∀ b, sum_n (λ a, coeff M a b) (length data) = 0.
Proof.
  intros Hne HM b.
  destruct (centered_kernel_value callback data Hne) as (M' & HM' & _ & _ & Hv).
  rewrite HM in HM'. injection HM' as <-.
  set (n := length data) in *.
  assert (Hn : Qc_of_nat n ≠ 0).
  { apply Qc_of_nat_pos. subst n. destruct data; simpl; [done|lia]. }
  set (K := kernel_fill callback 0 data (matrix_sized uninitialised n n)) in *.
  set (S := λ j, sum_n (λ i, coeff K i j) n) in *.
  set (T := sum_n S n) in *.
  rewrite (sum_n_ext _
             (λ a, coeff K a b
                   + ((T / Qc_of_nat (n * n) - S b / Qc_of_nat n)
                      + (- / Qc_of_nat n) * S a))).
  2:{ intros a _. rewrite Hv. rewrite Qc_of_nat_mul. unfold S. field. done. }
  rewrite !sum_n_add, sum_n_const, sum_n_scale, Qc_of_nat_mul.
  change (sum_n (λ i, coeff K i b) n) with (S b). fold T.
  generalize (S b) T. intros x y. field. done.
Qed.

(** The loop of [compute_covariance_matrix] on feature vectors that all have
    the size of [sum]: [sum] gains their sum, and the upper triangle of the
    matrix gains the sum of their outer products; nothing else changes. *)
Lemma covariance_loop_spec (callback : @FeatureVectorCallback Qc Data) data :
  ∀ current_vector sum covariance_matrix,
    let xs := feature_vectors callback data current_vector in
    Forall (λ x, vsize x = vsize sum) xs →
    ∃ sum' covariance_matrix',
      covariance_loop callback data current_vector sum covariance_matrix
      = Returned (sum', covariance_matrix')
      ∧ vsize sum' = vsize sum
      ∧ rows covariance_matrix' = rows covariance_matrix
      ∧ cols covariance_matrix' = cols covariance_matrix
      ∧ (∀ i, vcoeff sum' i = vcoeff sum i + sum_over (λ x, vcoeff x i) xs)
      ∧ (∀ i j, coeff covariance_matrix' i j
                = if decide (i ≤ j ∧ j < vsize sum)%nat
                  then coeff covariance_matrix i j
                       + sum_over (λ x, vcoeff x i * vcoeff x j) xs
                  else coeff covariance_matrix i j).
Proof.
  induction data as [|item rest IH]; intros cur sum cov xs Hxs; subst xs; simpl in *.
  - exists sum, cov. repeat split; auto.
    + intros i. ring.
    + intros i j. case_decide; [ring | reflexivity].
  - inversion Hxs as [|x xs Hx Hrest]; subst.
    rewrite add_assign_sized by done. cbn [mbind outcome_bind].
    match goal with
    | |- context [covariance_loop _ _ ?c ?s ?m] =>
        destruct (IH c s m) as (sum' & cov' & Hrun & Hs & Hr & Hc & Hsum & Hcov);
          [exact Hrest|]
    end.
    exists sum', cov'. simpl in *. repeat split; auto.
    + intros i. rewrite Hsum. ring.
    + intros i j. rewrite Hcov. simpl. rewrite Hx.
      repeat case_decide; try reflexivity; try lia; ring.
Qed.

Lemma covariance_matrix_value (callback : @FeatureVectorCallback Qc Data) data dimension :
  let xs := feature_vectors callback data (vector_sized uninitialised dimension) in
  data ≠ [] →
  Forall (λ x, vsize x = dimension) xs →
  ∃ C, compute_covariance_matrix data callback dimension = Returned C
       ∧ rows C = dimension ∧ cols C = dimension
       ∧ ∀ i j, coeff C i j
                = if decide (i ≤ j ∧ j < dimension)%nat then covariance_formula xs i j
                  else 0.
Proof.
  intros xs Hne Hxs. unfold compute_covariance_matrix.
  destruct (covariance_loop_spec callback data (vector_sized uninitialised dimension)
              (Eigen.vector_Zero dimension) (Eigen.matrix_Zero dimension dimension))
    as (sum & cov & Hrun & Hs & Hr & Hc & Hsum & Hcov); [exact Hxs|].
  fold xs in Hsum, Hcov. rewrite Hrun. cbn [mbind outcome_bind].
  assert (Hn : Qc_of_nat (length data) ≠ 0).
  { apply Qc_of_nat_pos. destruct data; simpl; [done|lia]. }
  unfold covariance_scale.
  eexists. split; [reflexivity|]. simpl in *. repeat split; auto.
  intros i j. rewrite Hs, Hcov, !Hsum. unfold covariance_formula.
  assert (Hlen : length xs = length data) by apply feature_vectors_length.
  rewrite Hlen.
  case_decide; [|reflexivity]. field. done.
Qed.

(** C7. On a non-empty range, and for any kernel callback, symmetric or
    not, [compute_centered_kernel_matrix] returns a square matrix [M] of the
    size of the range with [M(i,j) = M(j,i)] for all indices. *)
Theorem centered_kernel_symmetric (data : list Data) (callback : @KernelCallback Qc Data) :
  data ≠ [] →
  ∃ M, compute_centered_kernel_matrix data callback = Returned M
       ∧ rows M = length data ∧ cols M = length data
       ∧ ∀ i j, (i < length data)%nat → (j < length data)%nat →
                coeff M i j = coeff M j i.
Proof.
  intros Hne.
  destruct (centered_kernel_value callback data Hne) as (M & HM & Hr & Hc & _).
  exists M. repeat split; auto.
  intros i j Hi Hj. by apply (centered_kernel_symmetric_value callback data).
Qed.

(** C2. On a non-empty range, and for any kernel callback, every row sum
    and every column sum of the matrix that
    [compute_centered_kernel_matrix] returns is zero. *)
Theorem centered_kernel_sums_zero (data : list Data) (callback : @KernelCallback Qc Data) :
  data ≠ [] →
  ∃ M, compute_centered_kernel_matrix data callback = Returned M
       ∧ rows M = length data ∧ cols M = length data
       ∧ (∀ i, (i < rows M)%nat → sum_n (λ j, coeff M i j) (cols M) = 0)
       ∧ (∀ j, (j < cols M)%nat → sum_n (λ i, coeff M i j) (rows M) = 0).
Proof.
  intros Hne.
  destruct (centered_kernel_value callback data Hne) as (M & HM & Hr & Hc & _).
  exists M. rewrite Hr, Hc. repeat split; auto.
  - intros i Hi.
    rewrite (sum_n_ext _ (λ j, coeff M j i)).
    + by apply (centered_kernel_column_sum callback data).
    + intros j Hj. by apply (centered_kernel_symmetric_value callback data).
  - intros j _. by apply (centered_kernel_column_sum callback data).
Qed.

(** C1. In exact arithmetic, on a non-empty range whose feature vectors all
    have the given dimension, [compute_covariance_matrix] returns a square matrix of that
    dimension whose upper triangle holds [Σ x xᵀ − (1/n) (Σ x) (Σ x)ᵀ]; read
    through the self-adjoint view it is that symmetric matrix; and when the
    vectors are all equal, every coefficient of the matrix is zero. *)
Theorem covariance_matrix_correct (data : list Data) (callback : @FeatureVectorCallback Qc Data)
    (dimension : nat) :
  data ≠ [] →
  Forall (λ x, vsize x = dimension)
    (feature_vectors callback data (vector_sized uninitialised dimension)) →
  ∃ C, compute_covariance_matrix data callback dimension = Returned C
       ∧ rows C = dimension ∧ cols C = dimension
       ∧ (∀ i j, (i ≤ j)%nat → (j < dimension)%nat →
            coeff C i j
            = covariance_formula
                (feature_vectors callback data (vector_sized uninitialised dimension)) i j)
       ∧ (∀ i j, (i < dimension)%nat → (j < dimension)%nat →
            coeff (Eigen.selfadjointView_Upper C) i j
            = covariance_formula
                (feature_vectors callback data (vector_sized uninitialised dimension)) i j)
       ∧ (∀ x0,
            Forall (λ x, ∀ i, (i < dimension)%nat → vcoeff x i = vcoeff x0 i)
              (feature_vectors callback data (vector_sized uninitialised dimension)) →
            ∀ i j, (i < dimension)%nat → (j < dimension)%nat → coeff C i j = 0).
Proof.
  intros Hne Hxs.
  destruct (covariance_matrix_value callback data dimension Hne Hxs)
    as (C & HC & Hr & Hc & Hv).
  set (xs := feature_vectors callback data (vector_sized uninitialised dimension)) in *.
  exists C. repeat split; auto.
  - intros i j Hij Hj. rewrite Hv, decide_True by lia. reflexivity.
  - intros i j Hi Hj. simpl. case_decide.
    + rewrite Hv, decide_True by lia. reflexivity.
    + rewrite Hv, decide_True by lia. unfold covariance_formula.
      rewrite (sum_over_ext (λ x, vcoeff x j * vcoeff x i) (λ x, vcoeff x i * vcoeff x j))
        by (intros; ring).
      ring.
  - intros x0 Hsame i j Hi Hj. rewrite Hv. case_decide as Hij; [|reflexivity].
    unfold covariance_formula.
    rewrite (sum_over_constant (λ x, vcoeff x i * vcoeff x j) (vcoeff x0 i * vcoeff x0 j)),
      (sum_over_constant (λ x, vcoeff x i) (vcoeff x0 i)),
      (sum_over_constant (λ x, vcoeff x j) (vcoeff x0 j)).
    + field. unfold xs. rewrite feature_vectors_length.
      apply Qc_of_nat_pos. destruct data; simpl; [done|lia].
    + eapply Forall_impl; [exact Hsame|]. intros x Hx. apply Hx. lia.
    + eapply Forall_impl; [exact Hsame|]. intros x Hx. apply Hx. lia.
    + eapply Forall_impl; [exact Hsame|]. intros x Hx. simpl.
      rewrite !Hx by lia. reflexivity.
Qed.

End PcaFacts.

Section ScaleFacts.

Context {Data : Type}.

(** On the empty range the loop does not run, and the final update is made
    with the zero vector and the scale [-1.0/0]. *)
Lemma covariance_of_empty_range {T : Type} `{Scalar T} (storage : nat → T)
    (callback : @FeatureVectorCallback T Data) (dimension : nat) :
  compute_covariance_matrix storage [] callback dimension
  = Returned (Eigen.rankUpdate_Upper (Eigen.matrix_Zero dimension dimension)
                (Eigen.vector_Zero dimension) (covariance_scale (@nil Data))).
Proof. reflexivity. Qed.

(** C9. [compute_covariance_matrix] divides by the length of the range
    without a guard. On a non-empty range the divisor is not zero and the
    scale [-1.0/(end-begin)] is the quotient [-1/n], the number whose
    product with [n] is [-1]. On the empty range the divisor is zero and
    nothing tests it: in binary64 the scale is [-inf], the call still
    returns a square matrix of the given dimension, and that matrix holds NaN
    on and above the diagonal and [0] below it. *)
Theorem covariance_scale_defined (data : list Data) :
  data ≠ [] →
  Qc_of_nat (length data) ≠ 0%Qc
  ∧ covariance_scale (T:=Qc) data = (- (1) / Qc_of_nat (length data))%Qc
  ∧ (covariance_scale (T:=Qc) data * Qc_of_nat (length data) = - (1))%Qc
  ∧ scalar_of_nat (T:=float) (length (@nil Data)) = 0%float
  ∧ covariance_scale (T:=float) (@nil Data) = neg_infinity
  ∧ ∀ (storage : nat → float) (callback : @FeatureVectorCallback float Data)
      (dimension : nat),
      ∃ C, compute_covariance_matrix storage [] callback dimension = Returned C
           ∧ rows C = dimension ∧ cols C = dimension
           ∧ (∀ i j, (i ≤ j)%nat → (j < dimension)%nat → coeff C i j = nan)
           ∧ (∀ i j, (j < i)%nat → coeff C i j = 0%float).
Proof.
  intros Hne.
  assert (Hn : Qc_of_nat (length data) ≠ 0%Qc).
  { apply Qc_of_nat_pos. destruct data; simpl; [done|lia]. }
  split; [exact Hn|]. split; [reflexivity|]. split.
  { unfold covariance_scale. exact_arith. field. exact Hn. }
  split; [reflexivity|]. split; [reflexivity|].
  intros storage callback dimension. rewrite covariance_of_empty_range.
  eexists. split; [reflexivity|]. simpl. repeat split.
  - intros i j Hij Hj. rewrite decide_True by lia. reflexivity.
  - intros i j Hji. rewrite decide_False by lia. reflexivity.
Qed.

End ScaleFacts.

(** ** The primitives on the sample data *)

(** The four corners of the unit square: [Σ x xᵀ] is [[2 1] [1 2]] and the
    sum is [(2,2)], so the upper triangle is [[1 0] [. 1]]; the lower one is
    left at zero. *)
Example covariance_of_square :
  match compute_covariance_matrix Samples.uninitialised Samples.square Samples.vector 2 with
  | Returned C => matrix_values C = [[1; 0]; [0; 1]]%Q
  | _ => False
  end.
Proof. vm_compute. reflexivity. Qed.

Example covariance_of_constant :
  match compute_covariance_matrix Samples.uninitialised Samples.constant Samples.vector 2 with
  | Returned C => matrix_values C = [[0; 0]; [0; 0]]%Q
  | _ => False
  end.
Proof. vm_compute. reflexivity. Qed.

Example centered_kernel_of_items :
  match compute_centered_kernel_matrix Samples.uninitialised Samples.items Samples.kernel with
  | Returned M =>
      matrix_values M
      = [[4 # 3; 0; -4 # 3]; [0; 2 # 3; -2 # 3]; [-4 # 3; -2 # 3; 2]]%Q
  | _ => False
  end.
Proof. vm_compute. reflexivity. Qed.

Example project_of_square :
  match project Samples.uninitialised Samples.basis Samples.square Samples.vector 2 with
  | Returned (E, _) => matrix_values E = [[0]; [2]; [3]; [5]]%Q
  | _ => False
  end.
Proof. vm_compute. reflexivity. Qed.

(** * Properties of the dispatcher *)

Section EmbedFacts.

Context {Data KernelCallback DistanceCallback FeatureVectorCallback : Type}.
Context {ProjectingFunction : Type}.
Variable TAPKEE_WITH_ARPACK : bool.
Variable TAPKEE_USE_LGPL_COVERTREE : bool.
Variable implementation :
  TAPKEE_METHOD → list Data
  → @Callbacks KernelCallback DistanceCallback FeatureVectorCallback
  → ParametersMap → Context → outcome (@ReturnResult ProjectingFunction).
Variable get_method_name : TAPKEE_METHOD → string.

Local Abbreviation put_defaults :=
  (put_defaults TAPKEE_WITH_ARPACK TAPKEE_USE_LGPL_COVERTREE).
Local Abbreviation defaulted := (defaulted TAPKEE_USE_LGPL_COVERTREE).
Local Abbreviation embed :=
  (embed TAPKEE_WITH_ARPACK TAPKEE_USE_LGPL_COVERTREE implementation get_method_name).

Lemma count_true parameters KEY :
  count parameters KEY = true ↔ is_Some (parameters !! KEY).
Proof. unfold count. apply bool_decide_eq_true. Qed.

Lemma count_false parameters KEY :
  count parameters KEY = false ↔ parameters !! KEY = None.
Proof.
  unfold count. rewrite bool_decide_eq_false, eq_None_not_Some. reflexivity.
Qed.

(** [PUT_DEFAULT] pointwise: the key gets the default only if it had no
    value, every other key keeps what it had. *)
Lemma PUT_DEFAULT_lookup KEY VALUE parameters K :
  PUT_DEFAULT KEY VALUE parameters !! K =
    if decide (KEY = K) then Some (default VALUE (parameters !! KEY))
    else parameters !! K.
Proof.
  unfold PUT_DEFAULT. destruct (count parameters KEY) eqn:Hc; simpl.
  - apply count_true in Hc as [v Hv]. case_decide; subst; rewrite ?Hv; done.
  - apply count_false in Hc. rewrite lookup_insert. case_decide; subst.
    + rewrite Hc. done.
    + done.
Qed.

Lemma PUT_DEFAULT_present KEY VALUE parameters :
  is_Some (parameters !! KEY) → PUT_DEFAULT KEY VALUE parameters = parameters.
Proof.
  intros H. unfold PUT_DEFAULT. apply count_true in H. rewrite H. done.
Qed.

Lemma PUT_DEFAULT_kept KEY VALUE parameters K :
  is_Some (parameters !! K) → is_Some (PUT_DEFAULT KEY VALUE parameters !! K).
Proof.
  intros [v Hv]. rewrite PUT_DEFAULT_lookup. case_decide; subst; rewrite ?Hv; eauto.
Qed.

Lemma PUT_DEFAULT_self KEY VALUE parameters :
  is_Some (PUT_DEFAULT KEY VALUE parameters !! KEY).
Proof. rewrite PUT_DEFAULT_lookup. rewrite decide_True by done. eauto. Qed.

Lemma PUT_DEFAULT_idem KEY VALUE parameters :
  PUT_DEFAULT KEY VALUE (PUT_DEFAULT KEY VALUE parameters)
  = PUT_DEFAULT KEY VALUE parameters.
Proof. apply PUT_DEFAULT_present, PUT_DEFAULT_self. Qed.

(** A value that is present survives the defaults unchanged. *)
Lemma put_defaults_keeps parameters K v :
  parameters !! K = Some v → put_defaults parameters !! K = Some v.
Proof.
  intros Hv. unfold put_defaults.
  assert (Hstep : ∀ KEY VALUE p, p !! K = Some v → PUT_DEFAULT KEY VALUE p !! K = Some v).
  { intros KEY VALUE p Hp. rewrite PUT_DEFAULT_lookup.
    case_decide; subst; rewrite ?Hp; done. }
  destruct TAPKEE_WITH_ARPACK, TAPKEE_USE_LGPL_COVERTREE; auto 10.
Qed.

Lemma put_defaults_populated parameters K :
  defaulted K = true → is_Some (put_defaults parameters !! K).
Proof.
  intros HK. unfold put_defaults.
  destruct TAPKEE_WITH_ARPACK, TAPKEE_USE_LGPL_COVERTREE, K; try discriminate HK;
    cbv zeta; repeat first [ apply PUT_DEFAULT_self | apply PUT_DEFAULT_kept ].
Qed.

Lemma put_defaults_fixed parameters :
  (∀ K, defaulted K = true → is_Some (parameters !! K)) →
  put_defaults parameters = parameters.
Proof.
  intros Hall. unfold put_defaults.
  assert (H1 := Hall OUTPUT_FEATURE_VECTORS_ARE_COLUMNS eq_refl).
  assert (H2 := Hall EIGENSHIFT eq_refl).
  assert (H3 := Hall KLLE_TRACE_SHIFT eq_refl).
  assert (H4 := Hall CHECK_CONNECTIVITY eq_refl).
  assert (H5 := Hall EIGEN_EMBEDDING_METHOD eq_refl).
  assert (H6 := Hall TARGET_DIMENSION eq_refl).
  assert (H7 := Hall NEIGHBORS_METHOD).
  destruct TAPKEE_WITH_ARPACK, TAPKEE_USE_LGPL_COVERTREE; simpl in H7; cbv zeta;
    repeat rewrite (λ KEY VALUE, PUT_DEFAULT_present KEY VALUE parameters) by auto;
    reflexivity.
Qed.

(** C8. The defaulting step of [embed] is idempotent: applied to its own
    result it changes nothing, whatever the build flags and whatever the
    map it starts from (in particular one with a valid method selector);
    its result holds a value under every key that has a default, and every
    value the caller supplied is still there. *)
Theorem put_defaults_idempotent (parameters : ParametersMap) :
  put_defaults (put_defaults parameters) = put_defaults parameters
  ∧ (∀ K, defaulted K = true → is_Some (put_defaults parameters !! K))
  ∧ (∀ K v, parameters !! K = Some v → put_defaults parameters !! K = Some v).
Proof.
  split; [|split].
  - apply put_defaults_fixed. intros K HK. by apply put_defaults_populated.
  - intros K HK. by apply put_defaults_populated.
  - apply put_defaults_keeps.
Qed.

(** The defaults leave the selector and the two hook slots as they are. *)
Lemma put_defaults_other parameters K :
  defaulted K = false → K ≠ NEIGHBORS_METHOD →
  put_defaults parameters !! K = parameters !! K.
Proof.
  intros HK HN. unfold put_defaults.
  destruct TAPKEE_WITH_ARPACK, TAPKEE_USE_LGPL_COVERTREE; cbv zeta;
    rewrite !PUT_DEFAULT_lookup;
    repeat case_decide; subst; try discriminate HK; congruence.
Qed.

Lemma read_method_missing parameters :
  parameters !! REDUCTION_METHOD = None →
  read_method parameters
  = Thrown (missed_parameter_error "Dimension reduction method wasn't specified").
Proof.
  intros H. unfold read_method. apply count_false in H. rewrite H. reflexivity.
Qed.

Lemma read_method_typed parameters method :
  parameters !! REDUCTION_METHOD = Some (any_TAPKEE_METHOD method) →
  read_method parameters = Returned method.
Proof.
  intros H. unfold read_method, at_key.
  rewrite (proj2 (count_true _ _)) by eauto. rewrite H. reflexivity.
Qed.

Lemma read_method_ill_typed parameters v :
  parameters !! REDUCTION_METHOD = Some v →
  cast_TAPKEE_METHOD v = Thrown bad_any_cast →
  read_method parameters
  = Thrown (wrong_parameter_type_error "Wrong method type specified.").
Proof.
  intros H Hv. unfold read_method, at_key.
  rewrite (proj2 (count_true _ _)) by eauto. rewrite H. simpl. rewrite Hv. reflexivity.
Qed.

Lemma read_hook_defaults cast parameters KEY :
  defaulted KEY = false → KEY ≠ NEIGHBORS_METHOD →
  read_hook cast (put_defaults parameters) KEY = read_hook cast parameters KEY.
Proof.
  intros HK HN. unfold read_hook, count, at_key.
  rewrite put_defaults_other by done. reflexivity.
Qed.

Lemma read_context_defaults parameters :
  read_context (put_defaults parameters) = read_context parameters.
Proof.
  unfold read_context. rewrite !read_hook_defaults by done. reflexivity.
Qed.

Lemma read_hook_ill_typed cast parameters KEY v :
  parameters !! KEY = Some v → cast v = Thrown bad_any_cast →
  read_hook cast parameters KEY = Thrown bad_any_cast.
Proof.
  intros H Hv. unfold read_hook, at_key.
  rewrite (proj2 (count_true _ _)) by eauto. rewrite H. simpl. rewrite Hv. reflexivity.
Qed.

(** A hook is read by a cast that either succeeds or throws [bad_any_cast]. *)
Lemma read_hook_cases cast parameters KEY :
  (∀ v, (∃ f, cast v = Returned f) ∨ cast v = Thrown bad_any_cast) →
  (∃ h, read_hook cast parameters KEY = Returned h)
  ∨ read_hook cast parameters KEY = Thrown bad_any_cast.
Proof.
  intros Hcast. unfold read_hook.
  destruct (count parameters KEY); [|left; eauto].
  destruct (Hcast (at_key parameters KEY)) as [[f ->]| ->]; simpl; eauto.
Qed.

Lemma read_context_ill_typed parameters :
  hook_ill_typed parameters → read_context parameters = Thrown bad_any_cast.
Proof.
  intros [(v & H & Hv)|(v & H & Hv)]; unfold read_context.
  - rewrite (read_hook_ill_typed cast_progress_function parameters _ v H Hv).
    reflexivity.
  - rewrite (read_hook_ill_typed cast_cancel_function parameters _ v H Hv).
    assert (Hp : ∀ a, (∃ f, cast_progress_function a = Returned f)
                      ∨ cast_progress_function a = Thrown bad_any_cast).
    { intros []; simpl; eauto. }
    destruct (read_hook_cases _ parameters PROGRESS_FUNCTION Hp) as [[h ->]| ->];
      reflexivity.
Qed.

(** C5. When the parameters map has no method selector, [embed] throws
    [missed_parameter_error], whatever else the map holds, and it has done
    nothing before: no message is logged and no method variant (hence no
    callback) is entered, for any variants and callbacks. *)
Theorem embed_missing_selector (data : list Data) (kernel_callback : KernelCallback)
    (distance_callback : DistanceCallback) (feature_vector_callback : FeatureVectorCallback)
    (parameters : ParametersMap) :
  parameters !! REDUCTION_METHOD = None →
  embed data kernel_callback distance_callback feature_vector_callback parameters
  = ([], Thrown (missed_parameter_error "Dimension reduction method wasn't specified")).
Proof.
  intros H. unfold embed, prepare.
  rewrite (read_method_missing _ H). reflexivity.
Qed.

(** C3, as the code has it. When the selector is [UNKNOWN_METHOD], the one
    value of the enumeration that is no method variant, and the hook slots
    are read without a failure, [embed] throws [wrong_parameter_error]
    ("unknown method"): it has logged its message and entered no variant. *)
Theorem embed_unknown_method (data : list Data) (kernel_callback : KernelCallback)
    (distance_callback : DistanceCallback) (feature_vector_callback : FeatureVectorCallback)
    (parameters : ParametersMap) (context : Context) :
  parameters !! REDUCTION_METHOD = Some (any_TAPKEE_METHOD UNKNOWN_METHOD) →
  read_context parameters = Returned context →
  embed data kernel_callback distance_callback feature_vector_callback parameters
  = ([message_info ("Using " +:+ get_method_name UNKNOWN_METHOD +:+ " method.")],
     Thrown (wrong_parameter_error "unknown method")).
Proof.
  intros H Hc. unfold embed, prepare.
  rewrite (read_method_typed _ _ H). simpl.
  rewrite read_context_defaults, Hc. reflexivity.
Qed.

(** C10. With a well-typed selector and a hook slot ([PROGRESS_FUNCTION] or
    [CANCEL_FUNCTION]) that holds a value of another type, [embed] ends with
    the raw [bad_any_cast], before any message or variant; the same map with
    an ill-typed selector ends with [wrong_parameter_type_error]: only the
    selector's cast has a handler. *)
Theorem embed_hook_cast_unhandled (data : list Data) (kernel_callback : KernelCallback)
    (distance_callback : DistanceCallback) (feature_vector_callback : FeatureVectorCallback)
    (parameters : ParametersMap) (method : TAPKEE_METHOD) (other : any) :
  parameters !! REDUCTION_METHOD = Some (any_TAPKEE_METHOD method) →
  hook_ill_typed parameters →
  cast_TAPKEE_METHOD other = Thrown bad_any_cast →
  embed data kernel_callback distance_callback feature_vector_callback parameters
  = ([], Thrown bad_any_cast)
  ∧ embed data kernel_callback distance_callback feature_vector_callback
      (<[REDUCTION_METHOD := other]> parameters)
    = ([], Thrown (wrong_parameter_type_error "Wrong method type specified.")).
Proof.
  intros H Hh Ho. split; unfold embed, prepare.
  - rewrite (read_method_typed _ _ H). simpl.
    rewrite read_context_defaults, (read_context_ill_typed _ Hh). reflexivity.
  - rewrite (read_method_ill_typed _ other); [reflexivity| |done].
    apply lookup_insert_eq.
Qed.

End EmbedFacts.

(** * Further properties of the matrix primitives *)

(** ** For every scalar type *)

Section MoreLoopFacts.

Context {T : Type} `{Scalar T} {Data : Type}.

Lemma sum_n_agree (f g : nat → T) n :
  (∀ i, (i < n)%nat → f i = g i) → sum_n f n = sum_n g n.
Proof.
  induction n as [|n IH]; intros Hfg; simpl; [reflexivity|].
  rewrite IH, Hfg by (intros; auto with lia). reflexivity.
Qed.

(** The inner loop stores the kernel of the fixed item and the [k]-th item
    of its range at both mirrored positions. *)
Lemma kernel_row_values (callback : @KernelCallback T Data) item_i i data_j :
  ∀ j K k y,
    data_j !! k = Some y →
    coeff (kernel_row callback item_i i j data_j K) i (j + k) = callback item_i y
    ∧ coeff (kernel_row callback item_i i j data_j K) (j + k) i = callback item_i y.
Proof.
  induction data_j as [|item_j rest IH]; intros j K k y Hk; [discriminate Hk|].
  destruct k as [|k]; simpl in Hk.
  - injection Hk as ->. simpl. rewrite Nat.add_0_r.
    match goal with
    | |- context [kernel_row _ _ _ _ _ ?K1] =>
        destruct (kernel_row_spec callback item_i i rest (S j) K1) as (_ & _ & Hframe & _)
    end.
    simpl in Hframe. rewrite (Hframe i j), (Hframe j i) by lia.
    split; repeat case_decide; try reflexivity; lia.
  - simpl. rewrite <- Nat.add_succ_comm. by apply IH.
Qed.

(** The outer loop from offset [i] leaves alone what has a coordinate
    before [i]. *)
Lemma kernel_fill_frame (callback : @KernelCallback T Data) data_i :
  ∀ i K a b,
    (a < i ∨ b < i)%nat →
    coeff (kernel_fill callback i data_i K) a b = coeff K a b.
Proof.
  induction data_i as [|item_i rest IH]; intros i K a b Hab; simpl; [reflexivity|].
  rewrite IH by lia.
  destruct (kernel_row_spec callback item_i i (item_i :: rest) i K) as (_ & _ & Hframe & _).
  simpl in Hframe. apply Hframe. lia.
Qed.

Lemma kernel_fill_values (callback : @KernelCallback T Data) data_i :
  ∀ i K a b x y,
    (i ≤ a)%nat → (a ≤ b)%nat →
    data_i !! (a - i)%nat = Some x → data_i !! (b - i)%nat = Some y →
    coeff (kernel_fill callback i data_i K) a b = callback x y
    ∧ coeff (kernel_fill callback i data_i K) b a = callback x y.
Proof.
  induction data_i as [|item_i rest IH]; intros i K a b x y Hia Hab Hx Hy;
    [discriminate Hx|].
  simpl. destruct (decide (a = i)) as [->|Hne].
  - rewrite Nat.sub_diag in Hx. injection Hx as ->.
    rewrite !kernel_fill_frame by lia.
    destruct (kernel_row_values callback x i (x :: rest) i K (b - i)%nat y Hy) as [H1 H2].
    replace (i + (b - i))%nat with b in H1, H2 by lia. by split.
  - apply IH; [lia | lia | |].
    + replace (a - i)%nat with (S (a - S i)) in Hx by lia. exact Hx.
    + replace (b - i)%nat with (S (b - S i)) in Hy by lia. exact Hy.
Qed.

(** The loop of [compute_covariance_matrix] writes nothing below the
    diagonal and keeps the sizes. *)
Lemma covariance_loop_lower (callback : @FeatureVectorCallback T Data) data :
  ∀ current_vector sum covariance_matrix sum' covariance_matrix',
    covariance_loop callback data current_vector sum covariance_matrix
    = Returned (sum', covariance_matrix') →
    rows covariance_matrix' = rows covariance_matrix
    ∧ cols covariance_matrix' = cols covariance_matrix
    ∧ ∀ i j, (j < i)%nat → coeff covariance_matrix' i j = coeff covariance_matrix i j.
Proof.
  induction data as [|item rest IH]; intros cur sum cov sum' cov' Hrun; simpl in Hrun.
  - injection Hrun as <- <-. auto.
  - unfold Eigen.add_assign, eigen_assert in Hrun.
    case_bool_decide; cbn [mbind outcome_bind] in Hrun; [|discriminate Hrun].
    apply IH in Hrun as (Hr & Hc & Hlow). simpl in *.
    repeat split; auto. intros i j Hij. rewrite Hlow by done.
    rewrite decide_False by lia. reflexivity.
Qed.

(** The loop stops on the size assertion of [sum += current_vector] at the
    first feature vector whose size is not that of [sum]. *)
Lemma covariance_loop_mismatch (callback : @FeatureVectorCallback T Data) data :
  ∀ current_vector sum covariance_matrix,
    Exists (λ x, vsize x ≠ vsize sum) (feature_vectors callback data current_vector) →
    covariance_loop callback data current_vector sum covariance_matrix
    = Faulted eigen_assertion.
Proof.
  induction data as [|item rest IH]; intros cur sum cov Hxs; simpl in *.
  - inversion Hxs.
  - destruct (decide (vsize sum = vsize (callback item cur))) as [Heq|Hne].
    + rewrite add_assign_sized by done. cbn [mbind outcome_bind].
      apply IH. simpl.
      inversion Hxs as [? ? Hhead|? ? Htail]; subst; [congruence | exact Htail].
    + unfold Eigen.add_assign. rewrite bool_decide_eq_false_2 by done. reflexivity.
Qed.

(** The loop runs to its end when every feature vector has the size of
    [sum]. *)
Lemma covariance_loop_returns (callback : @FeatureVectorCallback T Data) data :
  ∀ current_vector sum covariance_matrix,
    Forall (λ x, vsize x = vsize sum) (feature_vectors callback data current_vector) →
    ∃ r, covariance_loop callback data current_vector sum covariance_matrix = Returned r.
Proof.
  induction data as [|item rest IH]; intros cur sum cov Hxs; simpl in *.
  - eauto.
  - inversion Hxs as [|x xs Hx Hrest]; subst.
    rewrite add_assign_sized by done. cbn [mbind outcome_bind].
    apply IH. simpl. exact Hrest.
Qed.

End MoreLoopFacts.

Section KernelValueFacts.

Context {T : Type} `{Scalar T} {Data : Type}.
Variable uninitialised : nat → T.

Local Abbreviation compute_centered_kernel_matrix :=
  (compute_centered_kernel_matrix uninitialised).

(** The kernel matrix before the centering, by the items of the range. *)
Lemma kernel_matrix_values (callback : @KernelCallback T Data) data a b x y :
  (a ≤ b)%nat → data !! a = Some x → data !! b = Some y →
  let K := kernel_fill callback 0 data
             (matrix_sized uninitialised (length data) (length data)) in
  coeff K a b = callback x y ∧ coeff K b a = callback x y.
Proof.
  intros Hab Hx Hy K. apply kernel_fill_values; [lia | done | |];
    by rewrite Nat.sub_0_r.
Qed.

(** X9. On a non-empty range [compute_centered_kernel_matrix] returns the
    centring [((K(a,b) + g) - c(a)) - c(b)] of the matrix [K] that holds, at
    [(a,b)] and at [(b,a)] for [a ≤ b], the kernel of the [a]-th and the
    [b]-th item in this order: the callback is read with the earlier item
    first, and [c] and [g] are the column means and the grand mean of [K]. *)
Theorem centered_kernel_of_ordered_pairs (callback : @KernelCallback T Data) data :
  data ≠ [] →
  ∃ K M,
    compute_centered_kernel_matrix data callback = Returned M
    ∧ rows M = length data ∧ cols M = length data
    ∧ (∀ a b x y, (a ≤ b)%nat → data !! a = Some x → data !! b = Some y →
         coeff K a b = callback x y ∧ coeff K b a = callback x y)
    ∧ (∀ a b,
         coeff M a b
         = (((coeff K a b
              + sum_n (λ j, sum_n (λ i, coeff K i j) (length data)) (length data)
                / scalar_of_nat (length data * length data))
             - sum_n (λ i, coeff K i a) (length data) / scalar_of_nat (length data))
            - sum_n (λ i, coeff K i b) (length data) / scalar_of_nat (length data))%S).
Proof.
  intros Hne.
  destruct (centered_kernel_coefficients uninitialised callback data Hne)
    as (M & HM & Hr & Hc & Hv).
  eexists _, M. split; [exact HM|]. split; [exact Hr|]. split; [exact Hc|].
  split; [|exact Hv].
  intros a b x y Hab Hx Hy. by apply kernel_matrix_values.
Qed.

End KernelValueFacts.

Section OutcomeFacts.

Context {T : Type} `{Scalar T} {Data : Type}.

(** X10. The result of [compute_centered_kernel_matrix] depends neither on
    what the fresh storage of the matrix held nor on the values of the
    callback at pairs in the other order: two calls whose callbacks agree on
    the pairs (earlier item, later item) of the range return the same
    coefficients. *)
Theorem centered_kernel_reads_ordered_pairs (storage1 storage2 : nat → T)
    (callback1 callback2 : @KernelCallback T Data) data :
  data ≠ [] →
  (∀ a b x y, (a ≤ b)%nat → data !! a = Some x → data !! b = Some y →
     callback1 x y = callback2 x y) →
  ∃ M1 M2,
    compute_centered_kernel_matrix storage1 data callback1 = Returned M1
    ∧ compute_centered_kernel_matrix storage2 data callback2 = Returned M2
    ∧ ∀ a b, (a < length data)%nat → (b < length data)%nat →
        coeff M1 a b = coeff M2 a b.
Proof.
  intros Hne Hagree.
  destruct (centered_kernel_coefficients storage1 callback1 data Hne)
    as (M1 & HM1 & _ & _ & Hv1).
  destruct (centered_kernel_coefficients storage2 callback2 data Hne)
    as (M2 & HM2 & _ & _ & Hv2).
  exists M1, M2. split; [exact HM1|]. split; [exact HM2|].
  set (n := length data) in *.
  set (K1 := kernel_fill callback1 0 data (matrix_sized storage1 n n)) in *.
  set (K2 := kernel_fill callback2 0 data (matrix_sized storage2 n n)) in *.
  assert (HK : ∀ a b, (a < n)%nat → (b < n)%nat → coeff K1 a b = coeff K2 a b).
  { intros a b Ha Hb.
    destruct (lookup_lt_is_Some_2 data a Ha) as [x Hx].
    destruct (lookup_lt_is_Some_2 data b Hb) as [y Hy].
    destruct (decide (a ≤ b)%nat) as [Hab|Hab].
    - destruct (kernel_matrix_values storage1 callback1 data a b x y Hab Hx Hy) as [E1 _].
      destruct (kernel_matrix_values storage2 callback2 data a b x y Hab Hx Hy) as [E2 _].
      transitivity (callback1 x y); [exact E1|].
      rewrite (Hagree a b x y Hab Hx Hy). symmetry. exact E2.
    - assert (Hba : (b ≤ a)%nat) by lia.
      destruct (kernel_matrix_values storage1 callback1 data b a y x Hba Hy Hx) as [_ E1].
      destruct (kernel_matrix_values storage2 callback2 data b a y x Hba Hy Hx) as [_ E2].
      transitivity (callback1 y x); [exact E1|].
      rewrite (Hagree b a y x Hba Hy Hx). symmetry. exact E2. }
  assert (Hcol : ∀ j, (j < n)%nat →
            sum_n (λ i, coeff K1 i j) n = sum_n (λ i, coeff K2 i j) n).
  { intros j Hj. apply sum_n_agree. intros i Hi. by apply HK. }
  assert (Hall : sum_n (λ j, sum_n (λ i, coeff K1 i j) n) n
                 = sum_n (λ j, sum_n (λ i, coeff K2 i j) n) n).
  { apply sum_n_agree. intros j Hj. by apply Hcol. }
  intros a b Ha Hb. rewrite Hv1, Hv2, Hall, (Hcol a Ha), (Hcol b Hb), (HK a b Ha Hb).
  reflexivity.
Qed.

(** X11. [compute_centered_kernel_matrix] returns a matrix exactly when the
    range is not empty; on the empty range it ends on the assertion of the
    reduction [kernel_matrix.mean()] that its matrix is not empty. *)
Theorem centered_kernel_returns_iff (storage : nat → T)
    (callback : @KernelCallback T Data) data :
  ((∃ M, compute_centered_kernel_matrix storage data callback = Returned M) ↔ data ≠ [])
  ∧ (data = [] →
     compute_centered_kernel_matrix storage data callback = Faulted eigen_assertion).
Proof.
  split; [split|].
  - intros [M HM] ->. discriminate HM.
  - intros Hne.
    destruct (centered_kernel_coefficients storage callback data Hne) as (M & HM & _).
    eauto.
  - intros ->. reflexivity.
Qed.

(** X12. Whenever [compute_covariance_matrix] returns, its matrix is square
    of the given dimension and holds zero everywhere below the diagonal:
    only the upper triangle is accumulated, so the stored matrix is to be
    read through the self-adjoint view. *)
Theorem covariance_lower_triangle_zero (storage : nat → T)
    (callback : @FeatureVectorCallback T Data) data dimension C :
  compute_covariance_matrix storage data callback dimension = Returned C →
  rows C = dimension ∧ cols C = dimension
  ∧ ∀ i j, (j < i)%nat → coeff C i j = scalar_zero.
Proof.
  unfold compute_covariance_matrix. intros Hrun.
  destruct (covariance_loop callback data _ _ _) as [[sum cov]| |] eqn:Hloop;
    cbn [mbind outcome_bind] in Hrun; try discriminate Hrun.
  injection Hrun as <-.
  apply covariance_loop_lower in Hloop as (Hr & Hc & Hlow). simpl in *.
  repeat split; auto. intros i j Hij.
  rewrite decide_False by lia. by apply Hlow.
Qed.

(** X13. When some feature vector has another size than the given
    dimension, [compute_covariance_matrix] ends on the size assertion of
    [sum += current_vector], at the first such vector and before the
    division. *)
Theorem covariance_dimension_mismatch (storage : nat → T)
    (callback : @FeatureVectorCallback T Data) data dimension :
  Exists (λ x, vsize x ≠ dimension)
    (feature_vectors callback data (vector_sized storage dimension)) →
  compute_covariance_matrix storage data callback dimension = Faulted eigen_assertion.
Proof.
  intros Hxs. unfold compute_covariance_matrix.
  rewrite covariance_loop_mismatch by exact Hxs. reflexivity.
Qed.

(** X17. [compute_covariance_matrix] returns a matrix exactly when every
    feature vector has the given dimension; otherwise it ends on the size
    assertion of [sum += current_vector]. The length of the range plays no
    part: nothing tests the divisor of [-1.0/(end-begin)], and on the empty
    range the call returns a matrix as well. *)
Theorem covariance_returns_iff (storage : nat → T)
    (callback : @FeatureVectorCallback T Data) data dimension :
  ((∃ C, compute_covariance_matrix storage data callback dimension = Returned C)
   ↔ Forall (λ x, vsize x = dimension)
       (feature_vectors callback data (vector_sized storage dimension)))
  ∧ (¬ Forall (λ x, vsize x = dimension)
         (feature_vectors callback data (vector_sized storage dimension)) →
     compute_covariance_matrix storage data callback dimension
     = Faulted eigen_assertion)
  ∧ ∃ C, compute_covariance_matrix storage [] callback dimension = Returned C.
Proof.
  assert (Hbad : ¬ Forall (λ x, vsize x = dimension)
                     (feature_vectors callback data (vector_sized storage dimension)) →
                 compute_covariance_matrix storage data callback dimension
                 = Faulted eigen_assertion).
  { intros Hn. apply not_Forall_Exists in Hn; [|intros x; apply _].
    unfold compute_covariance_matrix.
    rewrite covariance_loop_mismatch by exact Hn. reflexivity. }
  split; [split|split; [exact Hbad|]].
  - intros [C HC].
    destruct (Forall_Exists_dec (λ x, vsize x = dimension) (λ x, vsize x ≠ dimension)
                (λ x, decide (vsize x = dimension))
                (feature_vectors callback data (vector_sized storage dimension)))
      as [Hall|Hex]; [exact Hall|].
    unfold compute_covariance_matrix in HC.
    rewrite covariance_loop_mismatch in HC by exact Hex. discriminate HC.
  - intros Hall. unfold compute_covariance_matrix.
    destruct (covariance_loop_returns callback data (vector_sized storage dimension)
                (Eigen.vector_Zero dimension) (Eigen.matrix_Zero dimension dimension) Hall)
      as [[sum cov] ->].
    cbn [mbind outcome_bind]. eauto.
  - eexists. reflexivity.
Qed.

(** X14. [project] returns an embedding exactly when every feature vector
    has as many coefficients as the basis has rows; otherwise it ends on
    the size assertion of the product. It throws nothing. *)
Theorem project_returns_iff (storage : nat → T) (projection_result : ProjectionResult T)
    (callback : @FeatureVectorCallback T Data) data dimension :
  ((∃ E, project storage projection_result data callback dimension
         = Returned (E, Eigen.empty_vector))
   ↔ Forall (λ x, vsize x = rows projection_result.1)
       (feature_vectors callback data (vector_sized storage dimension)))
  ∧ (¬ Forall (λ x, vsize x = rows projection_result.1)
         (feature_vectors callback data (vector_sized storage dimension)) →
     project storage projection_result data callback dimension
     = Faulted eigen_assertion).
Proof.
  assert (Hbad : ¬ Forall (λ x, vsize x = rows projection_result.1)
                     (feature_vectors callback data (vector_sized storage dimension)) →
                 project storage projection_result data callback dimension
                 = Faulted eigen_assertion).
  { intros Hn. apply not_Forall_Exists in Hn; [|intros x; apply _].
    unfold project. rewrite project_loop_mismatch by done. reflexivity. }
  split; [split|exact Hbad].
  - intros [E HE].
    destruct (Forall_Exists_dec (λ x, vsize x = rows projection_result.1)
                (λ x, vsize x ≠ rows projection_result.1)
                (λ x, decide (vsize x = rows projection_result.1))
                (feature_vectors callback data (vector_sized storage dimension)))
      as [Hall|Hex]; [exact Hall|].
    unfold project in HE. rewrite project_loop_mismatch in HE by done.
    discriminate HE.
  - intros Hall. unfold project.
    destruct (project_loop_spec callback projection_result.1 data 0
                (vector_sized storage dimension)
                (Eigen.matrix_Zero (length data) (cols projection_result.1)))
      as (E & Hrun & _); [reflexivity | exact Hall |].
    rewrite Hrun. eauto.
Qed.

End OutcomeFacts.

(** ** In exact arithmetic *)

Lemma sum_over_add f g xs :
  sum_over (λ x, f x + g x) xs = sum_over f xs + sum_over g xs.
Proof. induction xs as [|x xs IH]; simpl; [ring|]. rewrite IH. ring. Qed.

Lemma sum_over_scale c f xs : sum_over (λ x, c * f x) xs = c * sum_over f xs.
Proof. induction xs as [|x xs IH]; simpl; [ring|]. rewrite IH. ring. Qed.

Lemma sum_over_same c xs : sum_over (λ _, c) xs = Qc_of_nat (length xs) * c.
Proof.
  induction xs as [|x xs IH]; simpl.
  - rewrite Qc_of_nat_0. ring.
  - rewrite IH, Qc_of_nat_S. ring.
Qed.

Lemma sum_over_related f g xs ys :
  Forall2 (λ x y, f x = g y) xs ys → sum_over f xs = sum_over g ys.
Proof. induction 1 as [|x y xs ys Hxy _ IH]; simpl; [reflexivity|]. by rewrite Hxy, IH. Qed.

Lemma Qc_square_nonneg (q : Qc) : 0 ≤ q * q.
Proof.
  destruct (Qclt_le_dec q 0) as [Hneg|Hpos].
  - assert (Hq : 0 ≤ - q).
    { apply Qclt_le_weak in Hneg. apply Qcopp_le_compat in Hneg.
      replace (- 0) with 0 in Hneg by ring. exact Hneg. }
    replace (q * q) with (- q * - q) by ring.
    replace 0 with (- q * 0) at 1 by ring.
    by apply Qcmult_le_mono_nonneg_l.
  - replace 0 with (q * 0) at 1 by ring.
    by apply Qcmult_le_mono_nonneg_l.
Qed.

Lemma sum_over_nonneg f xs : (∀ x, 0 ≤ f x) → 0 ≤ sum_over f xs.
Proof.
  intros Hf. induction xs as [|x xs IH]; simpl; [apply Qcle_refl|].
  replace 0 with (0 + 0) by ring. apply Qcplus_le_compat; auto.
Qed.

(** The one-pass formula and the sum of centred products are one number. *)
Lemma covariance_formula_centered xs i j :
  xs ≠ [] → covariance_formula xs i j = centered_products xs i j.
Proof.
  intros Hne.
  assert (Hn : Qc_of_nat (length xs) ≠ 0).
  { apply Qc_of_nat_pos. destruct xs; simpl; [done|lia]. }
  unfold centered_products.
  set (mi := mean_of xs i). set (mj := mean_of xs j).
  rewrite (sum_over_ext _
             (λ x, vcoeff x i * vcoeff x j
                   + ((- mj) * vcoeff x i + ((- mi) * vcoeff x j + mi * mj))))
    by (intros; ring).
  rewrite !sum_over_add, !sum_over_scale, sum_over_same.
  unfold covariance_formula. subst mi mj. unfold mean_of.
  field. exact Hn.
Qed.

Lemma sum_n_identity (x : nat → Qc) d c n :
  (c < n)%nat →
  sum_n (λ r, coeff (Identity (T:=Qc) d) r c * x r) n = x c.
Proof.
  assert (Hzero : ∀ m, (m ≤ c)%nat →
            sum_n (λ r, coeff (Identity (T:=Qc) d) r c * x r) m = 0).
  { induction m as [|m IH]; intros Hm; [reflexivity|].
    rewrite sum_n_S, IH by lia. simpl. rewrite decide_False by lia.
    exact_arith. ring. }
  induction n as [|n IH]; intros Hn; [lia|].
  rewrite sum_n_S. destruct (decide (n = c)) as [->|Hne].
  - rewrite Hzero by lia. simpl. rewrite decide_True by done. exact_arith. ring.
  - rewrite IH by lia. simpl. rewrite decide_False by done. exact_arith. ring.
Qed.

Section ExactPrimitiveFacts.

Context {Data : Type}.
Variable uninitialised : nat → ScalarType.

Local Abbreviation compute_centered_kernel_matrix :=
  (compute_centered_kernel_matrix uninitialised).
Local Abbreviation compute_covariance_matrix :=
  (compute_covariance_matrix uninitialised).
Local Abbreviation project := (project uninitialised).

(** X15. In exact arithmetic the one pass of [compute_covariance_matrix]
    gives what two passes would: on a non-empty range of vectors of the
    given dimension, the coefficient [(i,j)] of the upper triangle is the sum
    over the items of [(x_i - mean_i) * (x_j - mean_j)]. *)
Theorem covariance_is_centered_products (data : list Data)
    (callback : @FeatureVectorCallback Qc Data) (dimension : nat) :
  data ≠ [] →
  Forall (λ x, vsize x = dimension)
    (feature_vectors callback data (vector_sized uninitialised dimension)) →
  ∃ C, compute_covariance_matrix data callback dimension = Returned C
       ∧ ∀ i j, (i ≤ j)%nat → (j < dimension)%nat →
           coeff C i j
           = centered_products
               (feature_vectors callback data (vector_sized uninitialised dimension)) i j.
Proof.
  intros Hne Hxs.
  destruct (covariance_matrix_value uninitialised callback data dimension Hne Hxs)
    as (C & HC & _ & _ & Hv).
  exists C. split; [exact HC|]. intros i j Hij Hj.
  rewrite Hv, decide_True by lia. apply covariance_formula_centered.
  destruct data; [done|discriminate].
Qed.

(** X16. In exact arithmetic the diagonal of the covariance matrix is not
    negative. *)
Theorem covariance_diagonal_nonneg (data : list Data)
    (callback : @FeatureVectorCallback Qc Data) (dimension : nat) :
  data ≠ [] →
  Forall (λ x, vsize x = dimension)
    (feature_vectors callback data (vector_sized uninitialised dimension)) →
  ∃ C, compute_covariance_matrix data callback dimension = Returned C
       ∧ ∀ i, (i < dimension)%nat → 0 ≤ coeff C i i.
Proof.
  intros Hne Hxs.
  destruct (covariance_matrix_value uninitialised callback data dimension Hne Hxs)
    as (C & HC & _ & _ & Hv).
  exists C. split; [exact HC|]. intros i Hi.
  rewrite Hv, decide_True by lia.
  rewrite covariance_formula_centered by (destruct data; [done|discriminate]).
  apply sum_over_nonneg. intros x. apply Qc_square_nonneg.
Qed.

(** X18. In exact arithmetic [project] through the identity basis of the
    dimension of the feature vectors returns the feature vectors, one per
    row. *)
Theorem project_identity (side : DenseVector Qc) (data : list Data)
    (callback : @FeatureVectorCallback Qc Data) (dimension d : nat) :
  Forall (λ x, vsize x = d)
    (feature_vectors callback data (vector_sized uninitialised dimension)) →
  ∃ E, project (Identity d, side) data callback dimension
       = Returned (E, Eigen.empty_vector)
       ∧ rows E = length data ∧ cols E = d
       ∧ ∀ i x,
           feature_vectors callback data (vector_sized uninitialised dimension) !! i
           = Some x →
           ∀ c, (c < d)%nat → coeff E i c = vcoeff x c.
Proof.
  intros Hxs. unfold project.
  destruct (project_loop_spec callback (Identity d) data 0
              (vector_sized uninitialised dimension)
              (Eigen.matrix_Zero (length data) d))
    as (E & Hrun & Hr & Hc & Hrows & _); [reflexivity | exact Hxs |].
  cbn [fst]. change (cols (Identity d)) with d. rewrite Hrun. cbn [mbind outcome_bind].
  exists E. split; [reflexivity|]. split; [exact Hr|]. split; [exact Hc|].
  intros i x Hi c Hc'. etransitivity; [exact (Hrows i x Hi c)|].
  change (rows (Identity d)) with d. by apply sum_n_identity.
Qed.

End ExactPrimitiveFacts.

Section ExactInvariance.

Context {Data1 Data2 : Type}.

(** X19. In exact arithmetic the covariance matrix does not change when
    every feature vector is moved by one and the same vector [t]: two
    ranges whose feature vectors differ by [t], item by item, give the same
    coefficients. *)
Theorem covariance_translation_invariant (storage1 storage2 : nat → ScalarType)
    (data1 : list Data1) (callback1 : @FeatureVectorCallback Qc Data1)
    (data2 : list Data2) (callback2 : @FeatureVectorCallback Qc Data2)
    (dimension : nat) (t : nat → Qc) :
  data1 ≠ [] →
  Forall (λ x, vsize x = dimension)
    (feature_vectors callback1 data1 (vector_sized storage1 dimension)) →
  Forall2 (λ x y, vsize y = vsize x
                  ∧ ∀ i, (i < dimension)%nat → vcoeff y i = vcoeff x i + t i)
    (feature_vectors callback1 data1 (vector_sized storage1 dimension))
    (feature_vectors callback2 data2 (vector_sized storage2 dimension)) →
  ∃ C1 C2,
    compute_covariance_matrix storage1 data1 callback1 dimension = Returned C1
    ∧ compute_covariance_matrix storage2 data2 callback2 dimension = Returned C2
    ∧ ∀ i j, coeff C1 i j = coeff C2 i j.
Proof.
  intros Hne Hxs Hrel.
  set (xs := feature_vectors callback1 data1 (vector_sized storage1 dimension)) in *.
  set (ys := feature_vectors callback2 data2 (vector_sized storage2 dimension)) in *.
  assert (Hlen : length xs = length ys) by (by eapply Forall2_length).
  assert (Hne1 : xs ≠ []).
  { unfold xs. destruct data1; [done|discriminate]. }
  assert (Hne2 : data2 ≠ []).
  { intros ->. unfold ys in Hlen. simpl in Hlen. destruct xs; [done|discriminate]. }
  assert (Hys : Forall (λ y, vsize y = dimension) ys).
  { clear -Hxs Hrel. induction Hrel as [|x y xs ys [Hs _] _ IH]; [constructor|].
    inversion Hxs; subst. constructor; [congruence | by apply IH]. }
  destruct (covariance_matrix_value storage1 callback1 data1 dimension Hne Hxs)
    as (C1 & HC1 & _ & _ & Hv1).
  destruct (covariance_matrix_value storage2 callback2 data2 dimension Hne2 Hys)
    as (C2 & HC2 & _ & _ & Hv2).
  exists C1, C2. split; [exact HC1|]. split; [exact HC2|].
  intros i j. rewrite Hv1, Hv2. fold xs ys. case_decide as Hij; [|reflexivity].
  assert (Hn : Qc_of_nat (length xs) ≠ 0).
  { apply Qc_of_nat_pos. destruct xs; simpl; [done|lia]. }
  assert (Hsum : ∀ k, (k < dimension)%nat →
            sum_over (λ y, vcoeff y k) ys
            = sum_over (λ x, vcoeff x k) xs + Qc_of_nat (length xs) * t k).
  { intros k Hk. rewrite <- (sum_over_same (t k) xs), <- sum_over_add.
    symmetry. apply sum_over_related.
    eapply Forall2_impl; [exact Hrel|]. intros x y [_ Hxy]. simpl. symmetry. by apply Hxy. }
  assert (Hprod : sum_over (λ y, vcoeff y i * vcoeff y j) ys
            = sum_over (λ x, vcoeff x i * vcoeff x j) xs
              + t j * sum_over (λ x, vcoeff x i) xs
              + t i * sum_over (λ x, vcoeff x j) xs
              + Qc_of_nat (length xs) * (t i * t j)).
  { rewrite <- (sum_over_same (t i * t j) xs), <- !sum_over_scale, <- !sum_over_add.
    symmetry. apply sum_over_related.
    eapply Forall2_impl; [exact Hrel|]. intros x y [_ Hxy]. simpl.
    rewrite !Hxy by lia. ring. }
  unfold covariance_formula. rewrite <- Hlen, Hprod, !Hsum by lia.
  field. exact Hn.
Qed.

End ExactInvariance.

Section ExactKernelInvariance.

Context {Data : Type}.

(** X20. In exact arithmetic the centring removes a constant offset of the
    kernel: two callbacks that differ by a constant [s] on the pairs
    (earlier item, later item) of a non-empty range give the same centred
    matrix. *)
Theorem centered_kernel_shift_invariant (storage1 storage2 : nat → ScalarType)
    (callback1 callback2 : @KernelCallback Qc Data) (data : list Data) (s : Qc) :
  data ≠ [] →
  (∀ a b x y, (a ≤ b)%nat → data !! a = Some x → data !! b = Some y →
     callback2 x y = callback1 x y + s) →
  ∃ M1 M2,
    compute_centered_kernel_matrix storage1 data callback1 = Returned M1
    ∧ compute_centered_kernel_matrix storage2 data callback2 = Returned M2
    ∧ ∀ a b, (a < length data)%nat → (b < length data)%nat →
        coeff M1 a b = coeff M2 a b.
Proof.
  intros Hne Hshift.
  destruct (centered_kernel_value storage1 callback1 data Hne) as (M1 & HM1 & _ & _ & Hv1).
  destruct (centered_kernel_value storage2 callback2 data Hne) as (M2 & HM2 & _ & _ & Hv2).
  exists M1, M2. split; [exact HM1|]. split; [exact HM2|].
  set (n := length data) in *.
  assert (Hn : Qc_of_nat n ≠ 0).
  { apply Qc_of_nat_pos. subst n. destruct data; simpl; [done|lia]. }
  set (K1 := kernel_fill callback1 0 data (matrix_sized storage1 n n)) in *.
  set (K2 := kernel_fill callback2 0 data (matrix_sized storage2 n n)) in *.
  assert (HK : ∀ a b, (a < n)%nat → (b < n)%nat → coeff K2 a b = coeff K1 a b + s).
  { intros a b Ha Hb.
    destruct (lookup_lt_is_Some_2 data a Ha) as [x Hx].
    destruct (lookup_lt_is_Some_2 data b Hb) as [y Hy].
    destruct (decide (a ≤ b)%nat) as [Hab|Hab].
    - destruct (kernel_matrix_values storage1 callback1 data a b x y Hab Hx Hy) as [E1 _].
      destruct (kernel_matrix_values storage2 callback2 data a b x y Hab Hx Hy) as [E2 _].
      transitivity (callback2 x y); [exact E2|].
      rewrite (Hshift a b x y Hab Hx Hy). f_equal. symmetry. exact E1.
    - assert (Hba : (b ≤ a)%nat) by lia.
      destruct (kernel_matrix_values storage1 callback1 data b a y x Hba Hy Hx) as [_ E1].
      destruct (kernel_matrix_values storage2 callback2 data b a y x Hba Hy Hx) as [_ E2].
      transitivity (callback2 y x); [exact E2|].
      rewrite (Hshift b a y x Hba Hy Hx). f_equal. symmetry. exact E1. }
  assert (Hcol : ∀ j, (j < n)%nat →
            sum_n (λ i, coeff K2 i j) n = sum_n (λ i, coeff K1 i j) n + Qc_of_nat n * s).
  { intros j Hj. rewrite <- (sum_n_const s n), <- sum_n_add.
    apply sum_n_ext. intros i Hi. by apply HK. }
  assert (Hall : sum_n (λ j, sum_n (λ i, coeff K2 i j) n) n
                 = sum_n (λ j, sum_n (λ i, coeff K1 i j) n) n
                   + Qc_of_nat n * (Qc_of_nat n * s)).
  { rewrite <- (sum_n_const (Qc_of_nat n * s) n), <- sum_n_add.
    apply sum_n_ext. intros j Hj. by apply Hcol. }
  intros a b Ha Hb.
  rewrite Hv1, Hv2, Hall, (Hcol a Ha), (Hcol b Hb), (HK a b Ha Hb), Qc_of_nat_mul.
  field. exact Hn.
Qed.

End ExactKernelInvariance.

(** * Further properties of the dispatcher *)

Section DispatchFacts.

Context {Data KernelCallback DistanceCallback FeatureVectorCallback : Type}.
Context {ProjectingFunction : Type}.
Variable TAPKEE_WITH_ARPACK : bool.
Variable TAPKEE_USE_LGPL_COVERTREE : bool.
Variable implementation :
  TAPKEE_METHOD → list Data
  → @Callbacks KernelCallback DistanceCallback FeatureVectorCallback
  → ParametersMap → Context → outcome (@ReturnResult ProjectingFunction).
Variable get_method_name : TAPKEE_METHOD → string.

Local Abbreviation put_defaults :=
  (put_defaults TAPKEE_WITH_ARPACK TAPKEE_USE_LGPL_COVERTREE).
Local Abbreviation default_value :=
  (default_value TAPKEE_WITH_ARPACK TAPKEE_USE_LGPL_COVERTREE).
Local Abbreviation embed :=
  (embed TAPKEE_WITH_ARPACK TAPKEE_USE_LGPL_COVERTREE implementation get_method_name).

(** A recognized method goes to its own variant, and to no other. *)
Lemma switch_method_recognized method (data : list Data) (k : KernelCallback)
    (d : DistanceCallback) (f : FeatureVectorCallback) parameters context :
  method ≠ UNKNOWN_METHOD →
  switch_method implementation method data k d f parameters context
  = ([implementation_entered method parameters context],
     implementation method data (mkCallbacks k d f) parameters context).
Proof. intros Hm. destruct method; try reflexivity. congruence. Qed.

Lemma prepare_ready parameters method context :
  parameters !! REDUCTION_METHOD = Some (any_TAPKEE_METHOD method) →
  read_context parameters = Returned context →
  prepare TAPKEE_WITH_ARPACK TAPKEE_USE_LGPL_COVERTREE parameters
  = Returned (method, put_defaults parameters, context).
Proof.
  intros Hm Hc. unfold prepare.
  rewrite (read_method_typed _ _ Hm). cbn [mbind outcome_bind].
  rewrite read_context_defaults, Hc. reflexivity.
Qed.

(** What [embed] does once the selector and the hooks are read, for a
    recognized method, in terms of the outcome of the variant. *)
Lemma embed_recognized (data : list Data) (k : KernelCallback) (d : DistanceCallback)
    (f : FeatureVectorCallback) parameters method context :
  parameters !! REDUCTION_METHOD = Some (any_TAPKEE_METHOD method) →
  method ≠ UNKNOWN_METHOD →
  read_context parameters = Returned context →
  embed data k d f parameters
  = ([message_info ("Using " +:+ get_method_name method +:+ " method.");
      implementation_entered method (put_defaults parameters) context],
     match implementation method data (mkCallbacks k d f)
             (put_defaults parameters) context with
     | Thrown bad_alloc => Thrown (not_enough_memory_error "Not enough memory")
     | r => r
     end ≫= orient (put_defaults parameters)).
Proof.
  intros Hm Hk Hc. unfold embed.
  rewrite (prepare_ready _ _ _ Hm Hc). unfold dispatch.
  rewrite switch_method_recognized by done. cbv beta iota zeta.
  destruct (implementation method data _ _ _) as [r|[]|]; reflexivity.
Qed.

Lemma embed_missing_selector_trace (data : list Data) (k : KernelCallback)
    (d : DistanceCallback) (f : FeatureVectorCallback) parameters :
  parameters !! REDUCTION_METHOD = None →
  (embed data k d f parameters).1 = [].
Proof.
  intros Hv. unfold embed, prepare.
  rewrite (read_method_missing _ Hv). reflexivity.
Qed.

(** The orientation flag that [orient] reads after the defaults. *)
Lemma orient_flag parameters (b : bool) (r : @ReturnResult ProjectingFunction) :
  (parameters !! OUTPUT_FEATURE_VECTORS_ARE_COLUMNS = Some (any_bool b)
   ∨ (b = false ∧ parameters !! OUTPUT_FEATURE_VECTORS_ARE_COLUMNS = None)) →
  orient (put_defaults parameters) r
  = Returned (if b then (Eigen.transposeInPlace r.1, r.2) else r).
Proof.
  intros Hflag. unfold orient, at_key.
  assert (Hv : put_defaults parameters !! OUTPUT_FEATURE_VECTORS_ARE_COLUMNS
               = Some (any_bool b)).
  { destruct Hflag as [Hb|[-> Hn]].
    - by apply put_defaults_keeps.
    - unfold put_defaults.
      destruct TAPKEE_WITH_ARPACK, TAPKEE_USE_LGPL_COVERTREE; cbv zeta;
        rewrite !PUT_DEFAULT_lookup; repeat case_decide; try congruence;
        rewrite ?Hn; reflexivity. }
  rewrite Hv. reflexivity.
Qed.


(** X1. For a recognized method whose hooks are read without a failure,
    [embed] logs its message and enters one variant, the selected one, with
    the parameters after the defaults and the context of the two hooks. *)
Theorem embed_enters_selected (data : list Data) (k : KernelCallback)
    (d : DistanceCallback) (f : FeatureVectorCallback) parameters method context :
  parameters !! REDUCTION_METHOD = Some (any_TAPKEE_METHOD method) →
  method ≠ UNKNOWN_METHOD →
  read_context parameters = Returned context →
  (embed data k d f parameters).1
  = [message_info ("Using " +:+ get_method_name method +:+ " method.");
     implementation_entered method (put_defaults parameters) context].
Proof.
  intros Hm Hk Hc. rewrite (embed_recognized data k d f _ _ _ Hm Hk Hc). reflexivity.
Qed.

(** X2. When the variant returns a result, [embed] returns it as it is if
    the orientation flag is [false] or absent, and with the embedding
    transposed (the projecting function untouched) if the flag is [true]. *)
Theorem embed_orientation (data : list Data) (k : KernelCallback)
    (d : DistanceCallback) (f : FeatureVectorCallback) parameters method context
    (b : bool) (r : ReturnResult) :
  parameters !! REDUCTION_METHOD = Some (any_TAPKEE_METHOD method) →
  method ≠ UNKNOWN_METHOD →
  read_context parameters = Returned context →
  implementation method data (mkCallbacks k d f) (put_defaults parameters) context
  = Returned r →
  (parameters !! OUTPUT_FEATURE_VECTORS_ARE_COLUMNS = Some (any_bool b)
   ∨ (b = false ∧ parameters !! OUTPUT_FEATURE_VECTORS_ARE_COLUMNS = None)) →
  (embed data k d f parameters).2
  = Returned (if b then (Eigen.transposeInPlace r.1, r.2) else r).
Proof.
  intros Hm Hk Hc Hr Hb. rewrite (embed_recognized data k d f _ _ _ Hm Hk Hc).
  cbn [snd]. rewrite Hr. cbn [mbind outcome_bind]. by apply orient_flag.
Qed.

(** X3. An allocation failure of the variant leaves [embed] as
    [not_enough_memory_error]. *)
Theorem embed_bad_alloc (data : list Data) (k : KernelCallback)
    (d : DistanceCallback) (f : FeatureVectorCallback) parameters method context :
  parameters !! REDUCTION_METHOD = Some (any_TAPKEE_METHOD method) →
  method ≠ UNKNOWN_METHOD →
  read_context parameters = Returned context →
  implementation method data (mkCallbacks k d f) (put_defaults parameters) context
  = Thrown bad_alloc →
  (embed data k d f parameters).2 = Thrown (not_enough_memory_error "Not enough memory").
Proof.
  intros Hm Hk Hc Hr. rewrite (embed_recognized data k d f _ _ _ Hm Hk Hc).
  cbn [snd]. rewrite Hr. reflexivity.
Qed.

(** X4. Any other exception of the variant leaves [embed] unchanged,
    whatever the orientation flag holds. *)
Theorem embed_exception_unchanged (data : list Data) (k : KernelCallback)
    (d : DistanceCallback) (f : FeatureVectorCallback) parameters method context e :
  parameters !! REDUCTION_METHOD = Some (any_TAPKEE_METHOD method) →
  method ≠ UNKNOWN_METHOD →
  read_context parameters = Returned context →
  implementation method data (mkCallbacks k d f) (put_defaults parameters) context
  = Thrown e →
  e ≠ bad_alloc →
  (embed data k d f parameters).2 = Thrown e.
Proof.
  intros Hm Hk Hc Hr He. rewrite (embed_recognized data k d f _ _ _ Hm Hk Hc).
  cbn [snd]. rewrite Hr. destruct e; try reflexivity. congruence.
Qed.

(** X5. An orientation flag of another type than [bool] is found only after
    the variant has run: its result is dropped and [embed] ends with the raw
    [bad_any_cast]. *)
Theorem embed_orientation_ill_typed (data : list Data) (k : KernelCallback)
    (d : DistanceCallback) (f : FeatureVectorCallback) parameters method context
    (r : ReturnResult) v :
  parameters !! REDUCTION_METHOD = Some (any_TAPKEE_METHOD method) →
  method ≠ UNKNOWN_METHOD →
  read_context parameters = Returned context →
  implementation method data (mkCallbacks k d f) (put_defaults parameters) context
  = Returned r →
  parameters !! OUTPUT_FEATURE_VECTORS_ARE_COLUMNS = Some v →
  cast_bool v = Thrown bad_any_cast →
  embed data k d f parameters
  = ([message_info ("Using " +:+ get_method_name method +:+ " method.");
      implementation_entered method (put_defaults parameters) context],
     Thrown bad_any_cast).
Proof.
  intros Hm Hk Hc Hr Hv Hcast. rewrite (embed_recognized data k d f _ _ _ Hm Hk Hc).
  rewrite Hr. cbn [mbind outcome_bind]. unfold orient, at_key.
  rewrite (put_defaults_keeps _ _ _ _ _ Hv). simpl. rewrite Hcast. reflexivity.
Qed.

(** X6. A selector of another type than [TAPKEE_METHOD] ends [embed] with
    [wrong_parameter_type_error] before anything else is read: whatever the
    hooks and the other parameters hold, nothing is logged or entered. *)
Theorem embed_selector_ill_typed (data : list Data) (k : KernelCallback)
    (d : DistanceCallback) (f : FeatureVectorCallback) parameters v :
  parameters !! REDUCTION_METHOD = Some v →
  cast_TAPKEE_METHOD v = Thrown bad_any_cast →
  embed data k d f parameters
  = ([], Thrown (wrong_parameter_type_error "Wrong method type specified.")).
Proof.
  intros Hv Hcast. unfold embed, prepare.
  rewrite (read_method_ill_typed _ v Hv Hcast). reflexivity.
Qed.

(** X7. The defaults, key by key: a value of the caller is kept, an absent
    key receives the value of the table [default_value], and a key without
    a default stays absent. The order of the [PUT_DEFAULT] lines plays no
    part. *)
Theorem put_defaults_lookup parameters K :
  put_defaults parameters !! K
  = match parameters !! K with
    | Some v => Some v
    | None => default_value K
    end.
Proof.
  unfold put_defaults.
  destruct TAPKEE_WITH_ARPACK, TAPKEE_USE_LGPL_COVERTREE; cbv zeta;
    rewrite !PUT_DEFAULT_lookup;
    destruct (parameters !! K) as [v|] eqn:HK;
    repeat case_decide; subst; rewrite ?HK; try reflexivity; try congruence;
    destruct K; try reflexivity; congruence.
Qed.

(** X8. [embed] never enters a variant it was not asked for: an
    [implementation_entered] event in its trace names the method of the
    selector, which is a recognized one, and carries the parameters after
    the defaults and the context of the hooks; and the trace has at most
    the message and one such event. *)
Theorem embed_enters_only_selected (data : list Data) (k : KernelCallback)
    (d : DistanceCallback) (f : FeatureVectorCallback) parameters method given context :
  implementation_entered method given context ∈ (embed data k d f parameters).1 →
  parameters !! REDUCTION_METHOD = Some (any_TAPKEE_METHOD method)
  ∧ method ≠ UNKNOWN_METHOD
  ∧ given = put_defaults parameters
  ∧ read_context parameters = Returned context
  ∧ length (embed data k d f parameters).1 = 2%nat.
Proof.
  intros Hin.
  destruct (parameters !! REDUCTION_METHOD) as [v|] eqn:Hv.
  2:{ rewrite (embed_missing_selector_trace data k d f _ Hv) in Hin. inversion Hin. }
  destruct (cast_TAPKEE_METHOD v) as [m| |] eqn:Hcast.
  - assert (v = any_TAPKEE_METHOD m) as -> by (destruct v; simpl in Hcast; congruence).
    destruct (read_context parameters) as [c|e|ft] eqn:Hc.
    + assert (m = UNKNOWN_METHOD ∨ m ≠ UNKNOWN_METHOD) as [->|Hm]
        by (destruct m; (by left) || (right; discriminate)).
      * unfold embed in Hin. rewrite (prepare_ready _ _ _ Hv Hc) in Hin.
        cbn in Hin. apply list_elem_of_singleton in Hin. discriminate Hin.
      * rewrite (embed_recognized data k d f _ _ _ Hv Hm Hc) in Hin |- *. cbn [fst] in *.
        apply elem_of_cons in Hin as [Hin|Hin]; [discriminate Hin|].
        apply list_elem_of_singleton in Hin. injection Hin as -> -> ->.
        repeat split; auto.
    + unfold embed, prepare in Hin. rewrite (read_method_typed _ _ Hv) in Hin.
      cbn [mbind outcome_bind] in Hin. rewrite read_context_defaults, Hc in Hin.
      inversion Hin.
    + unfold embed, prepare in Hin. rewrite (read_method_typed _ _ Hv) in Hin.
      cbn [mbind outcome_bind] in Hin. rewrite read_context_defaults, Hc in Hin.
      inversion Hin.
  - assert (e = bad_any_cast) as -> by (destruct v; simpl in Hcast; congruence).
    unfold embed, prepare in Hin.
    rewrite (read_method_ill_typed _ v Hv Hcast) in Hin. inversion Hin.
  - destruct v; discriminate Hcast.
Qed.

End DispatchFacts.

Section DispatchSurface.

Context {Data KernelCallback DistanceCallback FeatureVectorCallback : Type}.
Context {ProjectingFunction : Type}.
Variable TAPKEE_WITH_ARPACK : bool.
Variable TAPKEE_USE_LGPL_COVERTREE : bool.
Variable implementation :
  TAPKEE_METHOD → list Data
  → @Callbacks KernelCallback DistanceCallback FeatureVectorCallback
  → ParametersMap → Context → outcome (@ReturnResult ProjectingFunction).
Variable get_method_name : TAPKEE_METHOD → string.

Local Abbreviation put_defaults :=
  (put_defaults TAPKEE_WITH_ARPACK TAPKEE_USE_LGPL_COVERTREE).
Local Abbreviation embed :=
  (embed TAPKEE_WITH_ARPACK TAPKEE_USE_LGPL_COVERTREE implementation get_method_name).

Lemma read_hook_returned cast parameters KEY h :
  read_hook cast parameters KEY = Returned h →
  (parameters !! KEY = None ∧ h = None)
  ∨ (∃ v f, parameters !! KEY = Some v ∧ cast v = Returned f ∧ h = Some f).
Proof.
  unfold read_hook, at_key. destruct (count parameters KEY) eqn:Hcount.
  - apply count_true in Hcount as [v Hv]. rewrite Hv. simpl.
    destruct (cast v) as [f| |] eqn:Hcast; simpl; intros Hh; try discriminate Hh.
    injection Hh as <-. right. eauto.
  - apply count_false in Hcount. intros Hh. injection Hh as <-. left. auto.
Qed.

(** X21. The context that the hooks give: when the two slots are read
    without a failure, a hook that is absent from the map is the null
    pointer of the context, and a hook that is present is the function
    pointer the map holds. *)
Theorem read_context_hooks parameters context :
  read_context parameters = Returned context →
  ((parameters !! PROGRESS_FUNCTION = None ∧ progress_function context = None)
   ∨ (∃ f, parameters !! PROGRESS_FUNCTION = Some (any_progress_function f)
           ∧ progress_function context = Some f))
  ∧ ((parameters !! CANCEL_FUNCTION = None ∧ cancel_function context = None)
     ∨ (∃ f, parameters !! CANCEL_FUNCTION = Some (any_cancel_function f)
             ∧ cancel_function context = Some f)).
Proof.
  unfold read_context. intros Hc.
  destruct (read_hook cast_progress_function parameters PROGRESS_FUNCTION)
    as [hp| |] eqn:Hp; cbn [mbind outcome_bind] in Hc; try discriminate Hc.
  destruct (read_hook cast_cancel_function parameters CANCEL_FUNCTION)
    as [hc| |] eqn:Hcn; cbn [mbind outcome_bind] in Hc; try discriminate Hc.
  injection Hc as <-. simpl.
  apply read_hook_returned in Hp, Hcn. split.
  - destruct Hp as [[Hn ->]|(v & f & Hv & Hcast & ->)]; [by left|right].
    exists f. destruct v; simpl in Hcast; try discriminate Hcast.
    injection Hcast as ->. auto.
  - destruct Hcn as [[Hn ->]|(v & f & Hv & Hcast & ->)]; [by left|right].
    exists f. destruct v; simpl in Hcast; try discriminate Hcast.
    injection Hcast as ->. auto.
Qed.

End DispatchSurface.



(** The statement of C3 with [unsupported_method_error] fails at the map that
    holds only the selector [UNKNOWN_METHOD]: the selector has the
    enumerated type and is no method variant, and the exception thrown is
    not [unsupported_method_error]. *)
Lemma embed_unknown_method_not_unsupported :
  Samples.unknown_selector !! REDUCTION_METHOD = Some (any_TAPKEE_METHOD UNKNOWN_METHOD)
  ∧ ¬ ∃ what, (Samples.embed Samples.unknown_selector).2
              = Thrown (unsupported_method_error what).
Proof.
  split; [reflexivity|]. intros [what H]. vm_compute in H. discriminate H.
Qed.

Lemma embed_unknown_method_witness :
  Samples.unknown_selector !! REDUCTION_METHOD = Some (any_TAPKEE_METHOD UNKNOWN_METHOD)
  ∧ read_context Samples.unknown_selector = Returned (mkContext None None)
  ∧ Samples.embed Samples.unknown_selector
    = ([message_info "Using some method."], Thrown (wrong_parameter_error "unknown method")).
Proof.
  split; [reflexivity|]. split; [reflexivity|].
  apply (embed_unknown_method false false Samples.implementation Samples.get_method_name
           [0%nat; 1%nat] tt tt tt Samples.unknown_selector (mkContext None None));
    reflexivity.
Defined.

Lemma embed_missing_selector_witness :
  Samples.no_selector !! REDUCTION_METHOD = None
  ∧ Samples.embed Samples.no_selector
    = ([], Thrown (missed_parameter_error "Dimension reduction method wasn't specified")).
Proof.
  split; [reflexivity|].
  apply (embed_missing_selector false false Samples.implementation Samples.get_method_name
           [0%nat; 1%nat] tt tt tt Samples.no_selector).
  reflexivity.
Defined.

Lemma embed_hook_cast_unhandled_witness :
  hook_ill_typed Samples.bad_progress_hook
  ∧ Samples.embed Samples.bad_progress_hook = ([], Thrown bad_any_cast)
  ∧ Samples.embed (<[REDUCTION_METHOD := any_IndexType 12%Z]> Samples.bad_progress_hook)
    = ([], Thrown (wrong_parameter_type_error "Wrong method type specified.")).
Proof.
  assert (Hh : hook_ill_typed Samples.bad_progress_hook).
  { left. exists (any_bool true). split; reflexivity. }
  split; [exact Hh|].
  apply (embed_hook_cast_unhandled false false Samples.implementation
           Samples.get_method_name [0%nat; 1%nat] tt tt tt Samples.bad_progress_hook
           PCA (any_IndexType 12%Z)); [reflexivity | exact Hh | reflexivity].
Defined.

Lemma centered_kernel_symmetric_witness :
  Samples.items ≠ []
  ∧ ∃ M, compute_centered_kernel_matrix Samples.uninitialised Samples.items Samples.kernel
         = Returned M
         ∧ rows M = length Samples.items ∧ cols M = length Samples.items
         ∧ ∀ i j, (i < length Samples.items)%nat → (j < length Samples.items)%nat →
                  coeff M i j = coeff M j i.
Proof.
  split; [discriminate|].
  apply (centered_kernel_symmetric Samples.uninitialised Samples.items Samples.kernel).
  discriminate.
Defined.

(** The statement of C7 read on the binary64 numbers fails on two items
    with the kernel values [0.1], [0.1], [0.8]: the call returns a matrix
    whose coefficients [(0,1)] and [(1,0)] differ in the last place. In
    [M(i,j) = ((K(i,j) + g) - c(i)) - c(j)] the two means are subtracted in
    one order at [(0,1)] and in the other at [(1,0)]. *)
Lemma centered_kernel_binary64_asymmetric :
  Samples.pair ≠ []
  ∧ ∃ M, compute_centered_kernel_matrix Samples.stale Samples.pair Samples.rounding_kernel
         = Returned M
         ∧ rows M = 2%nat ∧ cols M = 2%nat
         ∧ coeff M 0 1 = (-0x1.6666666666666p-3)%float
         ∧ coeff M 1 0 = (-0x1.6666666666667p-3)%float
         ∧ PrimFloat.eqb (coeff M 0 1) (coeff M 1 0) = false.
Proof.
  split; [discriminate|].
  eexists. split; [vm_compute; reflexivity|].
  repeat split; vm_compute; reflexivity.
Qed.

Lemma centered_kernel_sums_zero_witness :
  Samples.items ≠ []
  ∧ ∃ M, compute_centered_kernel_matrix Samples.uninitialised Samples.items Samples.kernel
         = Returned M
         ∧ rows M = length Samples.items ∧ cols M = length Samples.items
         ∧ (∀ i, (i < rows M)%nat → sum_n (λ j, coeff M i j) (cols M) = 0)
         ∧ (∀ j, (j < cols M)%nat → sum_n (λ i, coeff M i j) (rows M) = 0).
Proof.
  split; [discriminate|].
  apply (centered_kernel_sums_zero Samples.uninitialised Samples.items Samples.kernel).
  discriminate.
Defined.

Lemma covariance_matrix_correct_witness :
  Samples.square ≠ []
  ∧ Forall (λ x, vsize x = 2%nat)
      (feature_vectors Samples.vector Samples.square
         (vector_sized Samples.uninitialised 2))
  ∧ ∃ C, compute_covariance_matrix Samples.uninitialised Samples.square Samples.vector 2
         = Returned C
         ∧ rows C = 2%nat ∧ cols C = 2%nat
         ∧ (∀ i j, (i ≤ j)%nat → (j < 2)%nat →
              coeff C i j
              = covariance_formula
                  (feature_vectors Samples.vector Samples.square
                     (vector_sized Samples.uninitialised 2)) i j)
         ∧ (∀ i j, (i < 2)%nat → (j < 2)%nat →
              coeff (Eigen.selfadjointView_Upper C) i j
              = covariance_formula
                  (feature_vectors Samples.vector Samples.square
                     (vector_sized Samples.uninitialised 2)) i j)
         ∧ (∀ x0,
              Forall (λ x, ∀ i, (i < 2)%nat → vcoeff x i = vcoeff x0 i)
                (feature_vectors Samples.vector Samples.square
                   (vector_sized Samples.uninitialised 2)) →
              ∀ i j, (i < 2)%nat → (j < 2)%nat → coeff C i j = 0).
Proof.
  assert (Hsizes : Forall (λ x, vsize x = 2%nat)
            (feature_vectors Samples.vector Samples.square
               (vector_sized Samples.uninitialised 2))).
  { simpl. repeat constructor. }
  split; [discriminate|]. split; [exact Hsizes|].
  apply (covariance_matrix_correct Samples.uninitialised Samples.square Samples.vector 2);
    [discriminate | exact Hsizes].
Defined.

Lemma covariance_scale_defined_witness :
  Samples.square ≠ []
  ∧ Qc_of_nat (length Samples.square) ≠ 0
  ∧ covariance_scale (T:=Qc) Samples.square = - (1) / Qc_of_nat (length Samples.square)
  ∧ covariance_scale (T:=Qc) Samples.square * Qc_of_nat (length Samples.square) = - (1)
  ∧ scalar_of_nat (T:=float) (length (@nil (list ScalarType))) = 0%float
  ∧ covariance_scale (T:=float) (@nil (list ScalarType)) = neg_infinity
  ∧ ∀ (storage : nat → float)
      (callback : @FeatureVectorCallback float (list ScalarType)) (dimension : nat),
      ∃ C, compute_covariance_matrix storage [] callback dimension = Returned C
           ∧ rows C = dimension ∧ cols C = dimension
           ∧ (∀ i j, (i ≤ j)%nat → (j < dimension)%nat → coeff C i j = nan)
           ∧ (∀ i j, (j < i)%nat → coeff C i j = 0%float).
Proof.
  split; [discriminate|].
  apply (covariance_scale_defined Samples.square).
  discriminate.
Defined.

(** The statement of C1 read in binary64 fails on three equal items with the
    coordinates nearest to [0.1] and [0.7]: the feature vectors all have
    dimension 2 and are all equal, the call returns, and the matrix holds
    [-2^-55] above the diagonal and [2^-52] on it, where exact arithmetic
    gives zero. *)
Lemma covariance_binary64_not_zero :
  MoreSamples.repeated ≠ []
  ∧ Forall (λ x, vsize x = 2%nat)
      (feature_vectors MoreSamples.float_vector MoreSamples.repeated
         (vector_sized Samples.stale 2))
  ∧ Forall (λ x, ∀ i, (i < 2)%nat →
                 vcoeff x i
                 = vcoeff (vector_of_list
                             [0x1.999999999999ap-4%float; 0x1.6666666666666p-1%float]) i)
      (feature_vectors MoreSamples.float_vector MoreSamples.repeated
         (vector_sized Samples.stale 2))
  ∧ ∃ C, compute_covariance_matrix Samples.stale MoreSamples.repeated
           MoreSamples.float_vector 2
         = Returned C
         ∧ matrix_to_rows C
           = [[0%float; (-0x1p-55)%float]; [0%float; 0x1p-52%float]]
         ∧ PrimFloat.eqb (coeff C 0 1) 0 = false
         ∧ PrimFloat.eqb (coeff C 1 1) 0 = false.
Proof.
  split; [discriminate|]. split; [repeat constructor|].
  split; [repeat constructor|].
  eexists. split; [reflexivity|]. repeat split; vm_compute; reflexivity.
Qed.

Lemma project_rows_witness :
  Forall (λ x, vsize x = rows Samples.basis.1)
    (feature_vectors Samples.vector Samples.square
       (vector_sized Samples.uninitialised 2))
  ∧ ∃ E, project Samples.uninitialised Samples.basis Samples.square Samples.vector 2
         = Returned (E, Eigen.empty_vector)
         ∧ rows E = length Samples.square
         ∧ cols E = cols Samples.basis.1
         ∧ ∀ i x,
             feature_vectors Samples.vector Samples.square
               (vector_sized Samples.uninitialised 2) !! i = Some x →
             ∀ c, coeff E i c
                  = sum_n (λ r, coeff Samples.basis.1 r c * vcoeff x r)
                      (rows Samples.basis.1).
Proof.
  assert (Hsizes : Forall (λ x, vsize x = rows Samples.basis.1)
            (feature_vectors Samples.vector Samples.square
               (vector_sized Samples.uninitialised 2))).
  { simpl. repeat constructor. }
  split; [exact Hsizes|].
  exact (project_rows Samples.uninitialised Samples.basis Samples.square Samples.vector 2
           Hsizes).
Defined.

(** The statement of C4 with [dimension_mismatch_error] fails on the square
    data projected through a basis with three rows: the feature vectors
    have two coefficients, and no such exception is thrown. *)
Lemma project_mismatch_not_thrown :
  Exists (λ x, vsize x ≠ rows Samples.basis3.1)
    (feature_vectors Samples.vector Samples.square
       (vector_sized Samples.uninitialised 2))
  ∧ ¬ ∃ what, project Samples.uninitialised Samples.basis3 Samples.square Samples.vector 2
              = Thrown (dimension_mismatch_error what).
Proof.
  split.
  - apply Exists_cons_hd. simpl. lia.
  - intros [what H]. vm_compute in H. discriminate H.
Qed.

Lemma project_dimension_mismatch_witness :
  Exists (λ x, vsize x ≠ rows Samples.basis3.1)
    (feature_vectors Samples.vector Samples.square
       (vector_sized Samples.uninitialised 2))
  ∧ project Samples.uninitialised Samples.basis3 Samples.square Samples.vector 2
    = Faulted eigen_assertion.
Proof.
  assert (Hbad : Exists (λ x, vsize x ≠ rows Samples.basis3.1)
            (feature_vectors Samples.vector Samples.square
               (vector_sized Samples.uninitialised 2))).
  { apply Exists_cons_hd. simpl. lia. }
  split; [exact Hbad|].
  apply (project_dimension_mismatch Samples.uninitialised Samples.basis3 Samples.square
           Samples.vector 2).
  exact Hbad.
Defined.

(** * The further properties on concrete inputs *)

Lemma embed_enters_selected_witness :
  MoreSamples.pca_selector !! REDUCTION_METHOD = Some (any_TAPKEE_METHOD PCA)
  ∧ PCA ≠ UNKNOWN_METHOD
  ∧ read_context MoreSamples.pca_selector = Returned (mkContext None None)
  ∧ (Samples.embed MoreSamples.pca_selector).1
    = [message_info "Using some method.";
       implementation_entered PCA (put_defaults false false MoreSamples.pca_selector)
         (mkContext None None)].
Proof.
  split; [reflexivity|]. split; [discriminate|]. split; [reflexivity|].
  apply (embed_enters_selected false false Samples.implementation Samples.get_method_name
           [0%nat; 1%nat] tt tt tt MoreSamples.pca_selector PCA (mkContext None None));
    [reflexivity | discriminate | reflexivity].
Defined.

Lemma embed_orientation_witness :
  MoreSamples.pca_columns !! OUTPUT_FEATURE_VECTORS_ARE_COLUMNS = Some (any_bool true)
  ∧ (Samples.embed MoreSamples.pca_columns).2
    = Returned (Eigen.transposeInPlace (matrix_of_rows 2 [[1; 2]]), tt).
Proof.
  split; [reflexivity|].
  apply (embed_orientation false false Samples.implementation Samples.get_method_name
           [0%nat; 1%nat] tt tt tt MoreSamples.pca_columns PCA (mkContext None None)
           true (matrix_of_rows 2 [[1; 2]], tt));
    [reflexivity | discriminate | reflexivity | reflexivity | left; reflexivity].
Defined.

Lemma embed_bad_alloc_witness :
  (embed false false MoreSamples.out_of_memory Samples.get_method_name
     [0%nat; 1%nat] tt tt tt MoreSamples.pca_selector).2
  = Thrown (not_enough_memory_error "Not enough memory").
Proof.
  apply (embed_bad_alloc false false MoreSamples.out_of_memory Samples.get_method_name
           [0%nat; 1%nat] tt tt tt MoreSamples.pca_selector PCA (mkContext None None));
    [reflexivity | discriminate | reflexivity | reflexivity].
Defined.

Lemma embed_exception_unchanged_witness :
  eigendecomposition_error "no convergence" ≠ bad_alloc
  ∧ (embed false false MoreSamples.failing_solver Samples.get_method_name
       [0%nat; 1%nat] tt tt tt MoreSamples.pca_columns).2
    = Thrown (eigendecomposition_error "no convergence").
Proof.
  split; [discriminate|].
  apply (embed_exception_unchanged false false MoreSamples.failing_solver
           Samples.get_method_name [0%nat; 1%nat] tt tt tt MoreSamples.pca_columns PCA
           (mkContext None None) (eigendecomposition_error "no convergence"));
    [reflexivity | discriminate | reflexivity | reflexivity | discriminate].
Defined.

Lemma embed_orientation_ill_typed_witness :
  MoreSamples.pca_bad_orientation !! OUTPUT_FEATURE_VECTORS_ARE_COLUMNS
  = Some (any_IndexType 1%Z)
  ∧ cast_bool (any_IndexType 1%Z) = Thrown bad_any_cast
  ∧ Samples.embed MoreSamples.pca_bad_orientation
    = ([message_info "Using some method.";
        implementation_entered PCA
          (put_defaults false false MoreSamples.pca_bad_orientation)
          (mkContext None None)],
       Thrown bad_any_cast).
Proof.
  split; [reflexivity|]. split; [reflexivity|].
  apply (embed_orientation_ill_typed false false Samples.implementation
           Samples.get_method_name [0%nat; 1%nat] tt tt tt MoreSamples.pca_bad_orientation
           PCA (mkContext None None) (matrix_of_rows 2 [[1; 2]], tt) (any_IndexType 1%Z));
    [reflexivity | discriminate | reflexivity | reflexivity | reflexivity | reflexivity].
Defined.

Lemma embed_selector_ill_typed_witness :
  MoreSamples.bad_selector !! REDUCTION_METHOD = Some (any_IndexType 12%Z)
  ∧ hook_ill_typed MoreSamples.bad_selector
  ∧ Samples.embed MoreSamples.bad_selector
    = ([], Thrown (wrong_parameter_type_error "Wrong method type specified.")).
Proof.
  split; [reflexivity|]. split.
  - right. exists (any_bool false). split; reflexivity.
  - apply (embed_selector_ill_typed false false Samples.implementation
             Samples.get_method_name [0%nat; 1%nat] tt tt tt MoreSamples.bad_selector
             (any_IndexType 12%Z)); reflexivity.
Defined.

Lemma embed_enters_only_selected_witness :
  implementation_entered PCA (put_defaults false false MoreSamples.pca_selector)
    (mkContext None None)
  ∈ (Samples.embed MoreSamples.pca_selector).1
  ∧ MoreSamples.pca_selector !! REDUCTION_METHOD = Some (any_TAPKEE_METHOD PCA)
  ∧ PCA ≠ UNKNOWN_METHOD
  ∧ put_defaults false false MoreSamples.pca_selector
    = put_defaults false false MoreSamples.pca_selector
  ∧ read_context MoreSamples.pca_selector = Returned (mkContext None None)
  ∧ length (Samples.embed MoreSamples.pca_selector).1 = 2%nat.
Proof.
  assert (Hin : implementation_entered PCA
                  (put_defaults false false MoreSamples.pca_selector)
                  (mkContext None None)
                ∈ (Samples.embed MoreSamples.pca_selector).1).
  { apply list_elem_of_further, list_elem_of_here. }
  split; [exact Hin|].
  exact (embed_enters_only_selected false false Samples.implementation
           Samples.get_method_name [0%nat; 1%nat] tt tt tt MoreSamples.pca_selector PCA
           (put_defaults false false MoreSamples.pca_selector) (mkContext None None) Hin).
Defined.

Lemma centered_kernel_of_ordered_pairs_witness :
  Samples.items ≠ []
  ∧ ∃ K M,
      compute_centered_kernel_matrix Samples.uninitialised Samples.items Samples.kernel
      = Returned M
      ∧ rows M = length Samples.items ∧ cols M = length Samples.items
      ∧ (∀ a b x y, (a ≤ b)%nat → Samples.items !! a = Some x → Samples.items !! b = Some y →
           coeff K a b = Samples.kernel x y ∧ coeff K b a = Samples.kernel x y)
      ∧ (∀ a b,
           coeff M a b
           = coeff K a b
             + sum_n (λ j, sum_n (λ i, coeff K i j) (length Samples.items))
                 (length Samples.items)
               / Qc_of_nat (length Samples.items * length Samples.items)
             - sum_n (λ i, coeff K i a) (length Samples.items)
               / Qc_of_nat (length Samples.items)
             - sum_n (λ i, coeff K i b) (length Samples.items)
               / Qc_of_nat (length Samples.items)).
Proof.
  split; [discriminate|].
  assert (Hne : Samples.items ≠ []) by discriminate.
  exact (centered_kernel_of_ordered_pairs Samples.uninitialised Samples.kernel Samples.items
           Hne).
Defined.

Lemma centered_kernel_reads_ordered_pairs_witness :
  Samples.items ≠ []
  ∧ (∀ a b x y, (a ≤ b)%nat → Samples.items !! a = Some x → Samples.items !! b = Some y →
       Samples.kernel x y = MoreSamples.upper_kernel x y)
  ∧ ∃ M1 M2,
      compute_centered_kernel_matrix Samples.uninitialised Samples.items Samples.kernel
      = Returned M1
      ∧ compute_centered_kernel_matrix MoreSamples.other_storage Samples.items
          MoreSamples.upper_kernel
        = Returned M2
      ∧ ∀ a b, (a < length Samples.items)%nat → (b < length Samples.items)%nat →
          coeff M1 a b = coeff M2 a b.
Proof.
  assert (Hne : Samples.items ≠ []) by discriminate.
  assert (Hagree : ∀ a b x y, (a ≤ b)%nat →
            Samples.items !! a = Some x → Samples.items !! b = Some y →
            Samples.kernel x y = MoreSamples.upper_kernel x y).
  { intros a b x y Hab Hx Hy.
    destruct a as [|[|[|a]]], b as [|[|[|b]]]; simpl in Hx, Hy;
      try discriminate; try lia;
      injection Hx as <-; injection Hy as <-; reflexivity. }
  split; [exact Hne|]. split; [exact Hagree|].
  exact (centered_kernel_reads_ordered_pairs Samples.uninitialised
           MoreSamples.other_storage Samples.kernel MoreSamples.upper_kernel
           Samples.items Hne Hagree).
Defined.

Lemma covariance_lower_triangle_zero_witness :
  ∃ C, compute_covariance_matrix Samples.uninitialised Samples.square Samples.vector 2
       = Returned C
       ∧ rows C = 2%nat ∧ cols C = 2%nat
       ∧ ∀ i j, (j < i)%nat → coeff C i j = 0.
Proof.
  eexists. split; [reflexivity|].
  exact (covariance_lower_triangle_zero Samples.uninitialised Samples.vector
           Samples.square 2 _ eq_refl).
Defined.

Lemma covariance_dimension_mismatch_witness :
  Exists (λ x, vsize x ≠ 2%nat)
    (feature_vectors Samples.vector MoreSamples.ragged
       (vector_sized Samples.uninitialised 2))
  ∧ compute_covariance_matrix Samples.uninitialised MoreSamples.ragged Samples.vector 2
    = Faulted eigen_assertion.
Proof.
  assert (Hbad : Exists (λ x, vsize x ≠ 2%nat)
            (feature_vectors Samples.vector MoreSamples.ragged
               (vector_sized Samples.uninitialised 2))).
  { apply Exists_cons_tl, Exists_cons_hd. simpl. lia. }
  split; [exact Hbad|].
  exact (covariance_dimension_mismatch Samples.uninitialised Samples.vector
           MoreSamples.ragged 2 Hbad).
Defined.

Lemma covariance_is_centered_products_witness :
  Samples.square ≠ []
  ∧ Forall (λ x, vsize x = 2%nat)
      (feature_vectors Samples.vector Samples.square
         (vector_sized Samples.uninitialised 2))
  ∧ ∃ C, compute_covariance_matrix Samples.uninitialised Samples.square Samples.vector 2
         = Returned C
         ∧ ∀ i j, (i ≤ j)%nat → (j < 2)%nat →
             coeff C i j
             = centered_products
                 (feature_vectors Samples.vector Samples.square
                    (vector_sized Samples.uninitialised 2)) i j.
Proof.
  assert (Hne : Samples.square ≠ []) by discriminate.
  assert (Hsizes : Forall (λ x, vsize x = 2%nat)
            (feature_vectors Samples.vector Samples.square
               (vector_sized Samples.uninitialised 2))).
  { simpl. repeat constructor. }
  split; [exact Hne|]. split; [exact Hsizes|].
  exact (covariance_is_centered_products Samples.uninitialised Samples.square
           Samples.vector 2 Hne Hsizes).
Defined.

Lemma covariance_diagonal_nonneg_witness :
  Samples.square ≠ []
  ∧ Forall (λ x, vsize x = 2%nat)
      (feature_vectors Samples.vector Samples.square
         (vector_sized Samples.uninitialised 2))
  ∧ ∃ C, compute_covariance_matrix Samples.uninitialised Samples.square Samples.vector 2
         = Returned C
         ∧ ∀ i, (i < 2)%nat → 0 ≤ coeff C i i.
Proof.
  assert (Hne : Samples.square ≠ []) by discriminate.
  assert (Hsizes : Forall (λ x, vsize x = 2%nat)
            (feature_vectors Samples.vector Samples.square
               (vector_sized Samples.uninitialised 2))).
  { simpl. repeat constructor. }
  split; [exact Hne|]. split; [exact Hsizes|].
  exact (covariance_diagonal_nonneg Samples.uninitialised Samples.square
           Samples.vector 2 Hne Hsizes).
Defined.

Lemma project_identity_witness :
  Forall (λ x, vsize x = 2%nat)
    (feature_vectors Samples.vector Samples.square
       (vector_sized Samples.uninitialised 2))
  ∧ ∃ E, project Samples.uninitialised (Identity 2, Eigen.empty_vector) Samples.square
           Samples.vector 2
         = Returned (E, Eigen.empty_vector)
         ∧ rows E = length Samples.square ∧ cols E = 2%nat
         ∧ ∀ i x,
             feature_vectors Samples.vector Samples.square
               (vector_sized Samples.uninitialised 2) !! i = Some x →
             ∀ c, (c < 2)%nat → coeff E i c = vcoeff x c.
Proof.
  assert (Hsizes : Forall (λ x, vsize x = 2%nat)
            (feature_vectors Samples.vector Samples.square
               (vector_sized Samples.uninitialised 2))).
  { simpl. repeat constructor. }
  split; [exact Hsizes|].
  exact (project_identity Samples.uninitialised Eigen.empty_vector Samples.square
           Samples.vector 2 2 Hsizes).
Defined.

Lemma covariance_translation_invariant_witness :
  Samples.square ≠ []
  ∧ Forall2 (λ x y, vsize y = vsize x
                    ∧ ∀ i, (i < 2)%nat → vcoeff y i = vcoeff x i + MoreSamples.move i)
      (feature_vectors Samples.vector Samples.square
         (vector_sized Samples.uninitialised 2))
      (feature_vectors Samples.vector MoreSamples.moved_square
         (vector_sized MoreSamples.other_storage 2))
  ∧ ∃ C1 C2,
      compute_covariance_matrix Samples.uninitialised Samples.square Samples.vector 2
      = Returned C1
      ∧ compute_covariance_matrix MoreSamples.other_storage MoreSamples.moved_square
          Samples.vector 2
        = Returned C2
      ∧ ∀ i j, coeff C1 i j = coeff C2 i j.
Proof.
  assert (Hne : Samples.square ≠ []) by discriminate.
  assert (Hsizes : Forall (λ x, vsize x = 2%nat)
            (feature_vectors Samples.vector Samples.square
               (vector_sized Samples.uninitialised 2))).
  { simpl. repeat constructor. }
  assert (Hmoved : Forall2 (λ x y, vsize y = vsize x
                    ∧ ∀ i, (i < 2)%nat → vcoeff y i = vcoeff x i + MoreSamples.move i)
            (feature_vectors Samples.vector Samples.square
               (vector_sized Samples.uninitialised 2))
            (feature_vectors Samples.vector MoreSamples.moved_square
               (vector_sized MoreSamples.other_storage 2))).
  { simpl. repeat constructor;
      intros [|[|i]] Hi; try lia; apply Qc_is_canon; reflexivity. }
  split; [exact Hne|]. split; [exact Hmoved|].
  exact (covariance_translation_invariant Samples.uninitialised MoreSamples.other_storage
           Samples.square Samples.vector MoreSamples.moved_square Samples.vector 2
           MoreSamples.move Hne Hsizes Hmoved).
Defined.

Lemma centered_kernel_shift_invariant_witness :
  Samples.items ≠ []
  ∧ ∃ M1 M2,
      compute_centered_kernel_matrix Samples.uninitialised Samples.items Samples.kernel
      = Returned M1
      ∧ compute_centered_kernel_matrix Samples.uninitialised Samples.items
          MoreSamples.raised_kernel
        = Returned M2
      ∧ ∀ a b, (a < length Samples.items)%nat → (b < length Samples.items)%nat →
          coeff M1 a b = coeff M2 a b.
Proof.
  assert (Hne : Samples.items ≠ []) by discriminate.
  split; [exact Hne|].
  apply (centered_kernel_shift_invariant Samples.uninitialised Samples.uninitialised
           Samples.kernel MoreSamples.raised_kernel Samples.items (Qc_of_Z 5) Hne).
  intros a b x y _ _ _. reflexivity.
Defined.

Lemma read_context_hooks_witness :
  read_context MoreSamples.pca_with_progress = Returned (mkContext (Some 4096%N) None)
  ∧ ((MoreSamples.pca_with_progress !! PROGRESS_FUNCTION = None
      ∧ progress_function (mkContext (Some 4096%N) None) = None)
     ∨ (∃ f, MoreSamples.pca_with_progress !! PROGRESS_FUNCTION
             = Some (any_progress_function f)
             ∧ progress_function (mkContext (Some 4096%N) None) = Some f))
  ∧ ((MoreSamples.pca_with_progress !! CANCEL_FUNCTION = None
      ∧ cancel_function (mkContext (Some 4096%N) None) = None)
     ∨ (∃ f, MoreSamples.pca_with_progress !! CANCEL_FUNCTION
             = Some (any_cancel_function f)
             ∧ cancel_function (mkContext (Some 4096%N) None) = Some f)).
Proof.
  split; [reflexivity|].
  apply (read_context_hooks MoreSamples.pca_with_progress (mkContext (Some 4096%N) None)).
  reflexivity.
Defined.

